(** * Bitcoin halving backtest: a shallow embedding of [src/app/page.tsx]

    The page fetches a daily price series once, runs [performBacktest] over a
    fixed table of four halving events, and renders the result.  This file
    embeds the component's state, the loader [fetchHistoricalData] and the
    analyser [performBacktest], and proves the properties the specification
    states about them.

    Conventions of the embedding.
    - A price is a JavaScript [number]: an IEEE 754 binary64 value, modelled
      by Rocq's primitive [float] (same format, same rounding), so that
      division by zero, [NaN] and the truthiness test of [||] behave as in
      the source.
    - A timestamp is an integral count of epoch milliseconds, modelled by
      [Z].  Integers below [2^53] in magnitude are exact in binary64, and on
      them [+], [-], [<], [<=] and [Math.floor (a / 86400000)] agree with the
      operations of [Z] used here ([Z.div] rounds towards minus infinity).
    - An array is a [list]; [filter], [slice (0, n)] and [reduce (f, init)]
      are [filter], [firstn n] and [fold_left f _ init]. *)

From Stdlib Require Import ZArith List String Ascii Bool Lia Sorted.
From Stdlib Require Import Floats.
Import ListNotations.

#[local] Set Warnings "-inexact-float".

Local Open Scope string_scope.
Local Open Scope list_scope.
Local Open Scope Z_scope.

(** ** JavaScript numbers *)

Module JSNum.

(** [a < b] and [a > b]: false as soon as one side is [NaN]. *)
Definition lt (a b : float) : bool := PrimFloat.ltb a b.
Definition gt (a b : float) : bool := PrimFloat.ltb b a.
Definition le (a b : float) : bool := PrimFloat.leb a b.

(** [ToBoolean] on a number: [+0], [-0] and [NaN] are falsy. *)
Definition truthy (x : float) : bool :=
  negb (PrimFloat.is_zero x || PrimFloat.is_nan x).

(** [x || d] where [x] is a number. *)
Definition or_else (x d : float) : float := if truthy x then x else d.

(** [Number.isFinite]. *)
Definition isFinite (x : float) : bool := PrimFloat.is_finite x.

(** The data model's "positive real": a finite number above zero. *)
Definition positive (x : float) : bool :=
  PrimFloat.ltb 0%float x && PrimFloat.is_finite x.

(** [((a - b) / b) * 100], the shape of the three percentages. *)
Definition pct (a b : float) : float := ((a - b) / b * 100)%float.

End JSNum.

(** ** JavaScript arrays and strings *)

Module JSArray.

(** [arr[i]]: [undefined] (here [None]) outside [0 .. length - 1]. *)
Definition at_index {A : Type} (arr : list A) (i : Z) : option A :=
  if i <? 0 then None else nth_error arr (Z.to_nat i).

Definition length {A : Type} (arr : list A) : Z := Z.of_nat (List.length arr).

(** [arr.slice(0, n)] for [0 <= n]. *)
Definition slice0 {A : Type} (n : nat) (arr : list A) : list A := firstn n arr.

(** [arr.reduce(f, init)]. *)
Definition reduce {A B : Type} (f : B -> A -> B) (init : B) (arr : list A) : B :=
  fold_left f arr init.

End JSArray.

(** [s || d] where [s] is a string: the empty string is falsy. *)
Definition str_or_else (s d : string) : string :=
  match s with
  | EmptyString => d
  | _ => s
  end.

(** ** Data model *)

(** An element of [formattedData]. *)
Record PricePoint : Type := mkPoint
  { timestamp : Z;
    date : string;
    price : float }.

Record HalvingEvent : Type := mkHalving
  { h_date : string;
    blockHeight : Z;
    h_cycle : Z;
    priceAtHalving : float }.

Record PreHalvingData : Type := mkPre
  { pre_days : Z;
    startPrice : float;
    pre_halvingPrice : float;
    pre_percentageGain : float }.

Record PostHalvingData : Type := mkPost
  { post_days : Z;
    post_halvingPrice : float;
    peakPrice : float;
    peakDate : string;
    post_percentageGain : float;
    daysToTop : Z }.

Record CrashData : Type := mkCrash
  { crashDate : string;
    bottomPrice : float;
    percentageFromPeak : float }.

Record CycleAnalysis : Type := mkAnalysis
  { cycle : Z;
    halvingDate : string;
    preHalvingData : PreHalvingData;
    postHalvingData : PostHalvingData;
    crashData : CrashData }.

(** The decimal literals denote the nearest binary64 value, as they do in
    JavaScript. *)
Definition halvingEvents : list HalvingEvent :=
  [ mkHalving "2012-11-28" 210000 1 12.35%float;
    mkHalving "2016-07-09" 420000 2 650.63%float;
    mkHalving "2020-05-11" 630000 3 8821.42%float;
    mkHalving "2024-04-19" 840000 4 63812.00%float ].

(** ** [new Date(s).getTime()] on date-only ISO strings

    A string of the form [YYYY-MM-DD] denotes midnight UTC of that civil
    day.  Any other string is an invalid date, whose time value is [NaN] in
    JavaScript; [Date_parse] answers [None] for it. *)

Module JSDate.

Definition MS_PER_DAY : Z := 24 * 60 * 60 * 1000.

Definition digit (c : ascii) : option Z :=
  let n := Z.of_nat (nat_of_ascii c) in
  if (48 <=? n) && (n <=? 57) then Some (n - 48) else None.

Fixpoint number (acc : Z) (cs : list ascii) : option Z :=
  match cs with
  | [] => Some acc
  | c :: cs' =>
      match digit c with
      | Some d => number (10 * acc + d) cs'
      | None => None
      end
  end.

Definition is_leap (y : Z) : bool :=
  ((y mod 4 =? 0) && negb (y mod 100 =? 0)) || (y mod 400 =? 0).

Definition days_in_month (y m : Z) : Z :=
  match m with
  | 2 => if is_leap y then 29 else 28
  | 4 | 6 | 9 | 11 => 30
  | _ => 31
  end.

(** Days between 1970-01-01 and the civil day [y-m-d] (proleptic
    Gregorian calendar), by counting whole 400-year eras. *)
Definition days_from_civil (y m d : Z) : Z :=
  let y' := if m <=? 2 then y - 1 else y in
  let era := y' / 400 in
  let yoe := y' - era * 400 in
  let mp := (m + 9) mod 12 in
  let doy := (153 * mp + 2) / 5 + d - 1 in
  let doe := yoe * 365 + yoe / 4 - yoe / 100 + doy in
  era * 146097 + doe - 719468.

Definition Date_parse (s : string) : option Z :=
  match list_ascii_of_string s with
  | [y1; y2; y3; y4; "-"%char; m1; m2; "-"%char; d1; d2] =>
      match number 0 [y1; y2; y3; y4], number 0 [m1; m2], number 0 [d1; d2] with
      | Some y, Some m, Some d =>
          if (1 <=? m) && (m <=? 12) && (1 <=? d) && (d <=? days_in_month y m)
          then Some (days_from_civil y m d * MS_PER_DAY)
          else None
      | _, _, _ => None
      end
  | _ => None
  end.

(** The time value as an integer.  [NaN] has no counterpart among the
    integral timestamps of this model; every date of [halvingEvents] is
    well formed (lemma [halvingEvents_dates] below), so the default is
    never reached by [performBacktest]. *)
Definition getTime (s : string) : Z :=
  match Date_parse s with
  | Some t => t
  | None => 0
  end.

End JSDate.

(** ** The body of [halvingEvents.forEach] in [performBacktest]

    Each [const] of the source is one definition, parameterised by the data
    and by the event's time value [halvingTimestamp]; a name that is also a
    field of the result carries the suffix [Of]. *)

Section Cycle.

Variable data : list PricePoint.
Variable halving : HalvingEvent.
Variable halvingTimestamp : Z.

Definition preHalvingStart : Z := halvingTimestamp - 365 * 24 * 60 * 60 * 1000.

Definition preHalvingDataPoints : list PricePoint :=
  filter (fun d => (timestamp d >=? preHalvingStart) && (timestamp d <=? halvingTimestamp))
         data.

Definition startPriceOf : float :=
  match JSArray.at_index preHalvingDataPoints 0 with
  | Some p => JSNum.or_else (price p) 0%float
  | None => 0%float
  end.

Definition halvingPriceOf : float :=
  match JSArray.at_index preHalvingDataPoints
                         (JSArray.length preHalvingDataPoints - 1) with
  | Some p => JSNum.or_else (price p) (priceAtHalving halving)
  | None => priceAtHalving halving
  end.

Definition preHalvingGain : float := JSNum.pct halvingPriceOf startPriceOf.

Definition postHalvingEnd : Z := halvingTimestamp + 730 * 24 * 60 * 60 * 1000.

Definition postHalvingDataPoints : list PricePoint :=
  filter (fun d => (timestamp d >? halvingTimestamp) && (timestamp d <=? postHalvingEnd))
         data.

(** [{ price: 0, date: '', timestamp: 0 }] *)
Definition sentinel : PricePoint := mkPoint 0 "" 0%float.

Definition higher (max point : PricePoint) : PricePoint :=
  if JSNum.gt (price point) (price max) then point else max.

Definition peak : PricePoint :=
  JSArray.reduce higher
    (match JSArray.at_index postHalvingDataPoints 0 with
     | Some p => p
     | None => sentinel
     end)
    postHalvingDataPoints.

Definition peakPriceOf : float := JSNum.or_else (price peak) 0%float.
Definition peakDateOf : string := str_or_else (date peak) "".
Definition daysToTopOf : Z := (timestamp peak - halvingTimestamp) / (24 * 60 * 60 * 1000).
Definition postHalvingGain : float := JSNum.pct peakPriceOf halvingPriceOf.

Definition afterPeak : list PricePoint :=
  filter (fun d => timestamp d >? timestamp peak) data.

Definition lower (min point : PricePoint) : PricePoint :=
  if JSNum.lt (price point) (price min) then point else min.

Definition bottomAfterPeak : PricePoint :=
  JSArray.reduce lower
    (match JSArray.at_index afterPeak 0 with
     | Some p => p
     | None => mkPoint 0 "" peakPriceOf
     end)
    (JSArray.slice0 365 afterPeak).

Definition crashPercentage : float := JSNum.pct (price bottomAfterPeak) peakPriceOf.

Definition analysis : CycleAnalysis :=
  {| cycle := h_cycle halving;
     halvingDate := h_date halving;
     preHalvingData :=
       {| pre_days := 365;
          startPrice := startPriceOf;
          pre_halvingPrice := halvingPriceOf;
          pre_percentageGain := preHalvingGain |};
     postHalvingData :=
       {| post_days := JSArray.length postHalvingDataPoints;
          post_halvingPrice := halvingPriceOf;
          peakPrice := peakPriceOf;
          peakDate := peakDateOf;
          post_percentageGain := postHalvingGain;
          daysToTop := daysToTopOf |};
     crashData :=
       {| crashDate := date bottomAfterPeak;
          bottomPrice := price bottomAfterPeak;
          percentageFromPeak := crashPercentage |} |}.

End Cycle.

(** One pass of [forEach]: the event's time value is read off its date. *)
Definition analyse (data : list PricePoint) (halving : HalvingEvent) : CycleAnalysis :=
  analysis data halving (JSDate.getTime (h_date halving)).

(** The list [analyses] that [performBacktest] hands to [setCycleAnalysis]:
    it starts empty and receives one [push] per event, in table order. *)
Definition backtest (data : list PricePoint) : list CycleAnalysis :=
  fold_left (fun analyses halving => analyses ++ [analyse data halving]) halvingEvents [].

(** ** Component state, loader and view

    [Home] holds three pieces of state; the console stands for the
    operator-visible log written by [console.error]. *)

Inductive Exn : Type :=
| NetworkError     (* [fetch] rejects *)
| SyntaxError      (* [response.json()] rejects: the body is not JSON *)
| TypeError        (* [data.prices] has no [map], or an item cannot be indexed *)
| RangeError.      (* [format] is given an invalid date *)

Definition Result (A : Type) : Type := (Exn + A)%type.

Definition ret {A : Type} (a : A) : Result A := inr a.
Definition throw {A : Type} (e : Exn) : Result A := inl e.
Definition bind {A B : Type} (c : Result A) (k : A -> Result B) : Result B :=
  match c with
  | inl e => inl e
  | inr a => k a
  end.

Notation "x <- c ;; k" := (bind c (fun x => k))
  (at level 61, c at next level, right associativity).

(** [arr.map(f)] where [f] may throw: the first exception aborts the map. *)
Fixpoint mapM {A B : Type} (f : A -> Result B) (arr : list A) : Result (list B) :=
  match arr with
  | [] => ret []
  | a :: arr' =>
      b <- f a ;;
      bs <- mapM f arr' ;;
      ret (b :: bs)
  end.

(** An entry of [data.prices]. *)
Inductive Item : Type :=
| Pair (t : Z) (p : float)     (* [[timestampMillis, price]] *)
| NotIndexable.                (* [null]: [item[0]] throws *)

(** What the single request may come back with. *)
Inductive Response : Type :=
| Rejected                                 (* network failure *)
| NotJson                                  (* a body that does not parse *)
| Json (prices : option (list Item)).      (* [None]: [data.prices] is no array *)

Record AppState : Type := mkState
  { priceData : list PricePoint;
    cycleAnalysis : list CycleAnalysis;
    loading : bool;
    console : list (string * Exn) }.

(** [useState([])], [useState([])], [useState(true)]. *)
Definition initialState : AppState := mkState [] [] true [].

Definition setPriceData (v : list PricePoint) (st : AppState) : AppState :=
  mkState v (cycleAnalysis st) (loading st) (console st).
Definition setCycleAnalysis (v : list CycleAnalysis) (st : AppState) : AppState :=
  mkState (priceData st) v (loading st) (console st).
Definition setLoading (v : bool) (st : AppState) : AppState :=
  mkState (priceData st) (cycleAnalysis st) v (console st).
Definition console_error (msg : string) (e : Exn) (st : AppState) : AppState :=
  mkState (priceData st) (cycleAnalysis st) (loading st) (console st ++ [(msg, e)]).

Definition performBacktest (data : list PricePoint) (st : AppState) : AppState :=
  setCycleAnalysis (backtest data) st.

Inductive View : Type :=
| LoadingScreen                                   (* "Loading Bitcoin data..." *)
| Dashboard (chart : list PricePoint) (cards : list CycleAnalysis).

Definition getChartData (st : AppState) : list PricePoint :=
  map (fun d => mkPoint (timestamp d) (date d) (price d)) (priceData st).

(** The component's return value. *)
Definition render (st : AppState) : View :=
  if loading st then LoadingScreen
  else Dashboard (getChartData st) (cycleAnalysis st).

Section Loader.

(** [format(new Date(t), 'yyyy-MM-dd')] in the host's time zone; [None]
    when the instant is out of the range of [Date] and [format] throws. *)
Variable format : Z -> option string.

Definition formatItem (item : Item) : Result PricePoint :=
  match item with
  | NotIndexable => throw TypeError
  | Pair t p =>
      match format t with
      | Some d => ret (mkPoint t d p)
      | None => throw RangeError
      end
  end.

(** The statements of the [try] block before the first state update. *)
Definition formattedData (r : Response) : Result (list PricePoint) :=
  match r with
  | Rejected => throw NetworkError
  | NotJson => throw SyntaxError
  | Json None => throw TypeError
  | Json (Some prices) => mapM formatItem prices
  end.

Definition fetchHistoricalData (r : Response) (st : AppState) : AppState :=
  match formattedData r with
  | inr formatted =>
      setLoading false (performBacktest formatted (setPriceData formatted st))
  | inl error =>
      setLoading false (console_error "Error fetching data:" error st)
  end.

(** The session: mount with the initial state, then the one effect. *)
Definition session (r : Response) : AppState :=
  fetchHistoricalData r initialState.

End Loader.

(** ** Summary statistics

    The three figures of the "Summary Statistics" panel, before [toFixed]:
    [cycleAnalysis.reduce((sum, a) => sum + f(a), 0) / cycleAnalysis.length]. *)

(** An array length as a number (exact: lengths are far below [2^53]). *)
Definition number_of_length (n : nat) : float :=
  PrimFloat.of_uint63 (Uint63Axioms.of_Z (Z.of_nat n)).

Definition average (f : CycleAnalysis -> float) (arr : list CycleAnalysis) : float :=
  (JSArray.reduce (fun sum a => sum + f a) 0 arr / number_of_length (List.length arr))%float.

Record Summary : Type := mkSummary
  { avgPreHalvingGain : float;
    avgPostHalvingGain : float;
    avgDrawdown : float }.

Definition summary (st : AppState) : Summary :=
  {| avgPreHalvingGain :=
       average (fun a => pre_percentageGain (preHalvingData a)) (cycleAnalysis st);
     avgPostHalvingGain :=
       average (fun a => post_percentageGain (postHalvingData a)) (cycleAnalysis st);
     avgDrawdown :=
       average (fun a => percentageFromPeak (crashData a)) (cycleAnalysis st) |}.

(** ** Vocabulary of the specification *)

Definition in_pre_window (T : Z) (p : PricePoint) : Prop :=
  T - 365 * JSDate.MS_PER_DAY <= timestamp p <= T.

Definition in_post_window (T : Z) (p : PricePoint) : Prop :=
  T < timestamp p <= T + 730 * JSDate.MS_PER_DAY.

(** The data model's price series: every price is a positive real. *)
Definition well_formed (data : list PricePoint) : Prop :=
  Forall (fun p => JSNum.positive (price p) = true) data.

(** [r] occurs in [l], every point before that occurrence is strictly worse
    than [r], and every point after it is no better. *)
Definition first_best (worse weakly_worse : PricePoint -> PricePoint -> Prop)
    (l : list PricePoint) (r : PricePoint) : Prop :=
  exists l1 l2,
    l = l1 ++ r :: l2 /\
    Forall (fun q => worse q r) l1 /\
    Forall (fun q => weakly_worse q r) l2.

Definition first_max (l : list PricePoint) (r : PricePoint) : Prop :=
  first_best (fun q r => JSNum.lt (price q) (price r) = true)
             (fun q r => JSNum.le (price q) (price r) = true) l r.

Definition first_min (l : list PricePoint) (r : PricePoint) : Prop :=
  first_best (fun q r => JSNum.lt (price r) (price q) = true)
             (fun q r => JSNum.le (price r) (price q) = true) l r.

(** [Kept P l w]: [w] lists, in the order of [l], exactly the elements of
    [l] that satisfy [P] -- "the points with ..." of the specification. *)
Inductive Kept {A : Type} (P : A -> Prop) : list A -> list A -> Prop :=
| Kept_nil : Kept P [] []
| Kept_take x l w : P x -> Kept P l w -> Kept P (x :: l) (x :: w)
| Kept_drop x l w : ~ P x -> Kept P l w -> Kept P (x :: l) w.

(** An item that [formatItem] accepts, and the point it becomes. *)
Definition formats (format : Z -> option string) (item : Item) (p : PricePoint) : Prop :=
  exists t x d, item = Pair t x /\ format t = Some d /\ p = mkPoint t d x.

(** The series is ordered by strictly increasing timestamp. *)
Definition ascending (data : list PricePoint) : Prop :=
  StronglySorted (fun p q => timestamp p < timestamp q) data.

(** The pre- or post-window of an event of the table. *)
Definition in_cycle_window (h : HalvingEvent) (p : PricePoint) : Prop :=
  in_pre_window (JSDate.getTime (h_date h)) p \/
  in_post_window (JSDate.getTime (h_date h)) p.

(** ** Sample inputs

    A short daily-style series around the first halving (2012-11-28), used
    to run the definitions on concrete data. *)

Definition day (n : Z) : Z := 1354060800000 + n * JSDate.MS_PER_DAY.

Definition sample_series : list PricePoint :=
  [ mkPoint (day (-400)) "2011-10-25" 3%float;
    mkPoint (day (-365)) "2011-11-29" 2.5%float;
    mkPoint (day (-100)) "2012-08-20" 10%float;
    mkPoint (day 0) "2012-11-28" 12.5%float;
    mkPoint (day 100) "2013-03-08" 40%float;
    mkPoint (day 370) "2013-12-03" 1000%float;
    mkPoint (day 371) "2013-12-04" 1000%float;
    mkPoint (day 500) "2014-04-12" 400%float;
    mkPoint (day 600) "2014-07-21" 200%float;
    mkPoint (day 700) "2014-10-29" 200%float;
    mkPoint (day 800) "2015-02-06" 600%float ].

Definition halving1 : HalvingEvent := mkHalving "2012-11-28" 210000 1 12.35%float.
Definition halving4 : HalvingEvent := mkHalving "2024-04-19" 840000 4 63812.00%float.

(** An event of one's own whose reference price is zero. *)
Definition halving_free : HalvingEvent := mkHalving "2012-11-28" 210000 1 0%float.

(** A peak at day 10 followed by 400 daily points, all inside the
    post-window of the first halving. *)
Definition long_series : list PricePoint :=
  mkPoint (day 10) "2012-12-08" 100%float ::
  map (fun n => mkPoint (day (Z.of_nat n)) "2013" 50%float) (seq 20 400).

(** ** An order-preserving key for binary64 values

    The comparison of two numbers is lexicographic on sign class, exponent
    and mantissa; [key] makes that explicit so that order facts reduce to
    linear arithmetic. *)

Module SF.

Definition key (x : spec_float) : Z * Z * Z :=
  match x with
  | S754_zero _ => (0, 0, 0)
  | S754_nan => (0, 0, 0)
  | S754_infinity s => (if s then -2 else 2, 0, 0)
  | S754_finite s m e => if s then (-1, - e, - Zpos m) else (1, e, Zpos m)
  end.

Definition lex_lt (a b : Z * Z * Z) : Prop :=
  let '(a1, a2, a3) := a in
  let '(b1, b2, b3) := b in
  a1 < b1 \/ (a1 = b1 /\ (a2 < b2 \/ (a2 = b2 /\ a3 < b3))).

Definition lex_le (a b : Z * Z * Z) : Prop :=
  let '(a1, a2, a3) := a in
  let '(b1, b2, b3) := b in
  a1 < b1 \/ (a1 = b1 /\ (a2 < b2 \/ (a2 = b2 /\ a3 <= b3))).

Definition num (x : spec_float) : Prop := x <> S754_nan.

End SF.

(** * Properties *)

(** ** Comparison of spec-level floats through [SF.key] *)

Module SFFacts.
Import SF.

Ltac cases x :=
  let s := fresh "s" in
  let m := fresh "m" in
  let e := fresh "e" in
  destruct x as [s|s| |s m e]; [destruct s|destruct s| |destruct s].

Ltac by_cases x y :=
  cases x; cases y; try congruence; cbn -[Z.lt Z.le Z.compare Pos.compare_cont];
  try (split; [intros; lia | intros; try reflexivity; lia]);
  try (split; [discriminate | lia]);
  change (PosDef.Pos.compare_cont Eq ?a ?b) with (Pos.compare a b);
  match goal with
  | |- context [Z.compare ?e1 ?e2] => destruct (Z.compare_spec e1 e2)
  end;
  try match goal with
  | |- context [Pos.compare ?m1 ?m2] => destruct (Pos.compare_spec m1 m2)
  end;
  cbn; split; intros; try discriminate; try reflexivity; try lia.

Lemma SFltb_key x y :
  num x -> num y -> SFltb x y = true <-> lex_lt (key x) (key y).
Proof. unfold num, SFltb, lex_lt; intros Hx Hy. by_cases x y. Qed.

Lemma SFleb_key x y :
  num x -> num y -> SFleb x y = true <-> lex_le (key x) (key y).
Proof. unfold num, SFleb, lex_le; intros Hx Hy. by_cases x y. Qed.

Lemma SFltb_num x y : SFltb x y = true -> num x /\ num y.
Proof. unfold num, SFltb. cases x; cases y; cbn; intros; split; congruence. Qed.

Lemma SFleb_num x y : SFleb x y = true -> num x /\ num y.
Proof. unfold num, SFleb. cases x; cases y; cbn; intros; split; congruence. Qed.

End SFFacts.

(** ** JavaScript numbers: classification, order, percentages *)

Module JSNumFacts.
Import JSNum.

Lemma is_nan_spec x :
  is_nan x = match Prim2SF x with S754_nan => true | _ => false end.
Proof.
  unfold is_nan. rewrite eqb_spec. unfold SFeqb.
  destruct (Prim2SF x) as [[|]|[|]| |[|] m e]; cbn; try reflexivity.
  all: rewrite Z.compare_refl;
    change (PosDef.Pos.compare_cont Eq m m) with (Pos.compare m m);
    rewrite Pos.compare_refl; reflexivity.
Qed.

Lemma is_zero_spec x :
  is_zero x = match Prim2SF x with S754_zero _ => true | _ => false end.
Proof.
  unfold is_zero. rewrite eqb_spec. unfold SFeqb.
  change (Prim2SF zero) with (S754_zero false).
  destruct (Prim2SF x) as [[|]|[|]| |[|] m e]; reflexivity.
Qed.

Lemma is_infinity_spec x :
  is_infinity x = match Prim2SF x with S754_infinity _ => true | _ => false end.
Proof.
  unfold is_infinity. rewrite eqb_spec, abs_spec. unfold SFeqb.
  change (Prim2SF infinity) with (S754_infinity false).
  destruct (Prim2SF x) as [[|]|[|]| |[|] m e]; reflexivity.
Qed.

Lemma isFinite_spec x :
  isFinite x =
  match Prim2SF x with S754_zero _ | S754_finite _ _ _ => true | _ => false end.
Proof.
  unfold isFinite, is_finite. rewrite is_nan_spec, is_infinity_spec.
  destruct (Prim2SF x); reflexivity.
Qed.

Lemma positive_spec x :
  positive x = match Prim2SF x with S754_finite false _ _ => true | _ => false end.
Proof.
  unfold positive. fold (isFinite x). rewrite isFinite_spec, ltb_spec. unfold SFltb.
  change (Prim2SF 0) with (S754_zero false).
  destruct (Prim2SF x) as [[|]|[|]| |[|] m e]; reflexivity.
Qed.

Lemma truthy_spec x :
  truthy x = match Prim2SF x with S754_zero _ | S754_nan => false | _ => true end.
Proof.
  unfold truthy. rewrite is_nan_spec, is_zero_spec.
  destruct (Prim2SF x); reflexivity.
Qed.

Lemma positive_truthy x : positive x = true -> truthy x = true.
Proof.
  rewrite positive_spec, truthy_spec.
  destruct (Prim2SF x) as [s|s| |[|] m e]; congruence.
Qed.

Lemma or_else_positive x d : positive x = true -> or_else x d = x.
Proof. intros H. unfold or_else. now rewrite positive_truthy. Qed.

Lemma positive_not_nan x : positive x = true -> is_nan x = false.
Proof.
  rewrite positive_spec, is_nan_spec.
  destruct (Prim2SF x) as [s|s| |[|] m e]; congruence.
Qed.

Lemma positive_not_zero x : positive x = true -> is_zero x = false.
Proof.
  rewrite positive_spec, is_zero_spec.
  destruct (Prim2SF x) as [s|s| |[|] m e]; congruence.
Qed.

Lemma positive_gt_zero x : positive x = true -> lt 0 x = true.
Proof. unfold positive, lt. intros H. now apply andb_prop in H. Qed.

Lemma positive_finite x : positive x = true -> isFinite x = true.
Proof. unfold positive, isFinite. intros H. now apply andb_prop in H. Qed.

(** *** Order *)

Lemma num_iff x : is_nan x = false <-> SF.num (Prim2SF x).
Proof.
  rewrite is_nan_spec. unfold SF.num. destruct (Prim2SF x); split; congruence.
Qed.

Ltac to_keys :=
  repeat match goal with
  | H : is_nan _ = false |- _ => apply num_iff in H
  | H : PrimFloat.ltb _ _ = true |- _ =>
      rewrite ltb_spec in H;
      let N := fresh "N" in
      pose proof (SFFacts.SFltb_num _ _ H) as N; destruct N;
      apply SFFacts.SFltb_key in H; [ | assumption | assumption ]
  | H : PrimFloat.leb _ _ = true |- _ =>
      rewrite leb_spec in H;
      let N := fresh "N" in
      pose proof (SFFacts.SFleb_num _ _ H) as N; destruct N;
      apply SFFacts.SFleb_key in H; [ | assumption | assumption ]
  end.

Ltac lex :=
  unfold SF.lex_lt, SF.lex_le in *;
  repeat match goal with
  | |- context [SF.key ?x] => destruct (SF.key x) as [[? ?] ?]
  | H : context [SF.key ?x] |- _ => destruct (SF.key x) as [[? ?] ?]
  end; lia.

Lemma lt_le a b : lt a b = true -> le a b = true.
Proof.
  unfold lt, le. intros H. to_keys.
  rewrite leb_spec. apply SFFacts.SFleb_key; try assumption. lex.
Qed.

Lemma le_lt_trans a b c : le a b = true -> lt b c = true -> lt a c = true.
Proof.
  unfold lt, le. intros H1 H2. to_keys.
  rewrite ltb_spec. apply SFFacts.SFltb_key; try assumption. lex.
Qed.

Lemma lt_le_trans a b c : lt a b = true -> le b c = true -> lt a c = true.
Proof.
  unfold lt, le. intros H1 H2. to_keys.
  rewrite ltb_spec. apply SFFacts.SFltb_key; try assumption. lex.
Qed.

Lemma lt_trans a b c : lt a b = true -> lt b c = true -> lt a c = true.
Proof. intros H1 H2. apply (le_lt_trans a b c); auto using lt_le. Qed.

Lemma not_lt_le a b :
  is_nan a = false -> is_nan b = false -> lt a b = false -> le b a = true.
Proof.
  unfold lt, le. intros Ha Hb H. to_keys.
  rewrite leb_spec. apply SFFacts.SFleb_key; try assumption.
  rewrite ltb_spec in H.
  assert (N : ~ SF.lex_lt (SF.key (Prim2SF a)) (SF.key (Prim2SF b))).
  { intros K. apply SFFacts.SFltb_key in K; try assumption. congruence. }
  lex.
Qed.

Lemma gt_lt a b : gt a b = lt b a.
Proof. reflexivity. Qed.

(** *** Percentages *)

(** A zero divisor never gives a finite percentage. *)
Lemma pct_zero_divisor a b : is_zero b = true -> isFinite (pct a b) = false.
Proof.
  rewrite is_zero_spec, isFinite_spec. unfold pct.
  rewrite mul_spec, div_spec.
  change (Prim2SF 100) with (S754_finite false 7036874417766400 (-46)).
  destruct (Prim2SF b) as [sb|sb| |sb mb eb]; try discriminate. intros _.
  destruct (Prim2SF (a - b)) as [[|]|[|]| |[|] m e]; destruct sb; reflexivity.
Qed.

Lemma sub_self p : positive p = true -> (p - p)%float = 0%float.
Proof.
  rewrite positive_spec. intros H. apply Prim2SF_inj. rewrite sub_spec.
  destruct (Prim2SF p) as [s|s| |[|] m e]; try discriminate.
  unfold SF64sub, SFsub. rewrite Z.sub_diag. reflexivity.
Qed.

(** No change from a positive price is [0 %]. *)
Lemma pct_self p : positive p = true -> pct p p = 0%float.
Proof.
  intros H. unfold pct. rewrite (sub_self p H).
  apply Prim2SF_inj. rewrite mul_spec, div_spec. rewrite positive_spec in H.
  change (Prim2SF 0) with (S754_zero false).
  destruct (Prim2SF p) as [s|s| |[|] m e]; try discriminate. reflexivity.
Qed.

(** Dividing a mantissa by itself: quotient [2^53] at exponent [-53],
    with nothing left over. *)
Lemma div_core_self m e :
  SFdiv_core_binary prec emax (Zpos m) e (Zpos m) e = (2 ^ 53, -53, loc_Exact).
Proof.
  unfold SFdiv_core_binary. cbv zeta.
  rewrite !Z.sub_diag.
  change (Z.min (fexp prec emax 0) 0) with (-53).
  change (0 - -53) with 53.
  cbv iota.
  rewrite Z.shiftl_mul_pow2 by lia.
  assert (E : Z.div_eucl (Z.pos m * 2 ^ 53) (Z.pos m) = (2 ^ 53, 0)).
  { pose proof (Z.div_mul (2 ^ 53) (Z.pos m) ltac:(lia)) as D.
    pose proof (Z.mod_mul (2 ^ 53) (Z.pos m) ltac:(lia)) as M.
    rewrite (Z.mul_comm (Z.pos m)).
    unfold Z.div, Z.modulo in D, M.
    destruct (Z.div_eucl (2 ^ 53 * Z.pos m) (Z.pos m)) as [q r]. congruence. }
  rewrite E.
  unfold new_location, new_location_even, new_location_odd.
  destruct (Z.even (Z.pos m)); reflexivity.
Qed.

(** Falling from a positive price to zero is [-100 %], exactly. *)
Lemma pct_from_zero h : positive h = true -> pct 0 h = (-100)%float.
Proof.
  rewrite positive_spec. intros H. unfold pct.
  assert (E : ((0 - h) / h)%float = (-1)%float).
  { apply Prim2SF_inj. rewrite div_spec, sub_spec.
    change (Prim2SF 0) with (S754_zero false).
    destruct (Prim2SF h) as [s|s| |[|] m e]; try discriminate.
    unfold SF64sub, SFsub, SF64div, SFdiv. rewrite div_core_self. reflexivity. }
  rewrite E. reflexivity.
Qed.

End JSNumFacts.

(** ** Arrays *)

Module JSArrayFacts.
Import JSArray.

Lemma at_index_0 {A : Type} (arr : list A) : at_index arr 0 = hd_error arr.
Proof. destruct arr; reflexivity. Qed.

Lemma at_index_last_nil {A : Type} : at_index (@nil A) (length (@nil A) - 1) = None.
Proof. reflexivity. Qed.

Lemma at_index_last_snoc {A : Type} (arr : list A) (x : A) :
  at_index (arr ++ [x]) (length (arr ++ [x]) - 1) = Some x.
Proof.
  unfold at_index, length. rewrite length_app. cbn [List.length].
  destruct (Z.ltb_spec (Z.of_nat (List.length arr + 1) - 1) 0) as [H|H]; [lia|].
  replace (Z.to_nat (Z.of_nat (List.length arr + 1) - 1)) with (List.length arr) by lia.
  rewrite nth_error_app2 by lia. now rewrite Nat.sub_diag.
Qed.

Lemma snoc_cases {A : Type} (arr : list A) :
  arr = [] \/ exists arr' x, arr = arr' ++ [x].
Proof.
  induction arr as [|x arr' _] using rev_ind; [now left|right; eauto].
Qed.

Lemma filter_Kept {A : Type} (P : A -> Prop) (f : A -> bool) (l : list A) :
  (forall x, f x = true <-> P x) -> Kept P l (filter f l).
Proof.
  intros Hf. induction l as [|x l IH]; cbn.
  - constructor.
  - destruct (f x) eqn:E.
    + constructor; [now apply Hf | exact IH].
    + apply Kept_drop; [|exact IH]. intros HP. apply Hf in HP. congruence.
Qed.

Lemma Kept_In {A : Type} (P : A -> Prop) (l w : list A) :
  Kept P l w -> forall x, In x w <-> In x l /\ P x.
Proof.
  induction 1 as [|y l w Hy _ IH|y l w Hy _ IH]; intros x; cbn.
  - tauto.
  - rewrite IH. split; [intros [->|[? ?]]; auto | intros [[->|?] ?]; auto].
  - rewrite IH. split; [intros [? ?]; auto | intros [[->|?] ?]; [contradiction|auto]].
Qed.

Lemma Kept_all {A : Type} (P : A -> Prop) (l : list A) :
  Forall P l -> forall w, Kept P l w -> w = l.
Proof.
  intros HP w K. induction K as [|y l w Hy _ IH|y l w Hy _ IH].
  - reflexivity.
  - f_equal. apply IH. now inversion HP.
  - inversion HP; contradiction.
Qed.

Lemma slice0_In {A : Type} (n : nat) (arr : list A) (x : A) :
  In x (slice0 n arr) -> In x arr.
Proof.
  unfold slice0. intros H. rewrite <- (firstn_skipn n arr). apply in_or_app. now left.
Qed.

Lemma slice0_nil_iff {A : Type} (n : nat) (arr : list A) :
  (0 < n)%nat -> slice0 n arr = [] <-> arr = [].
Proof.
  unfold slice0. destruct n; [lia|]. destruct arr; cbn; split; congruence.
Qed.

Lemma reduce_In {A : Type} (beats : A -> A -> bool) (arr : list A) (init : A) :
  In (reduce (fun m p => if beats p m then p else m) init arr) (init :: arr).
Proof.
  unfold reduce. revert init. induction arr as [|a arr IH]; intros init; cbn.
  - now left.
  - destruct (beats a init); specialize (IH a) as IHa; specialize (IH init) as IHi;
      cbn in *; tauto.
Qed.

Section Best.

Variable A : Type.
Variable beats : A -> A -> bool.
Variables worse weakly : A -> A -> Prop.
Variable D : A -> Prop.

Hypothesis beats_worse : forall m p, D m -> D p -> beats p m = true -> worse m p.
Hypothesis keeps_weakly : forall m p, D m -> D p -> beats p m = false -> weakly p m.
Hypothesis worse_trans : forall q m p, worse q m -> worse m p -> worse q p.
Hypothesis weakly_worse : forall q m p, weakly q m -> worse m p -> worse q p.

Let step (m p : A) : A := if beats p m then p else m.

Lemma fold_best (rest : list A) :
  forall l1 m l2,
    Forall D (m :: rest) ->
    Forall (fun q => worse q m) l1 ->
    Forall (fun q => weakly q m) l2 ->
    exists l1' l2',
      l1 ++ m :: l2 ++ rest = l1' ++ fold_left step rest m :: l2' /\
      Forall (fun q => worse q (fold_left step rest m)) l1' /\
      Forall (fun q => weakly q (fold_left step rest m)) l2'.
Proof.
  induction rest as [|a rest IH]; intros l1 m l2 HD H1 H2; cbn [fold_left].
  - exists l1, l2. rewrite app_nil_r. auto.
  - assert (Dm : D m) by now inversion HD.
    assert (Da : D a) by (inversion HD as [|? ? _ HD']; now inversion HD').
    assert (Dr : Forall D rest) by (inversion HD as [|? ? _ HD']; now inversion HD').
    unfold step at 2 4 6. destruct (beats a m) eqn:B.
    + pose proof (beats_worse m a Dm Da B) as W.
      destruct (IH (l1 ++ m :: l2) a []) as (l1' & l2' & E & F1 & F2).
      * now constructor.
      * apply Forall_app; split; [|constructor].
        -- eapply Forall_impl; [|exact H1]. intros q Hq. now apply (worse_trans q m a).
        -- exact W.
        -- eapply Forall_impl; [|exact H2]. intros q Hq. now apply (weakly_worse q m a).
      * constructor.
      * exists l1', l2'. split; [|auto].
        rewrite <- E. cbn. rewrite <- app_assoc. reflexivity.
    + pose proof (keeps_weakly m a Dm Da B) as W.
      destruct (IH l1 m (l2 ++ [a])) as (l1' & l2' & E & F1 & F2).
      * now constructor.
      * exact H1.
      * apply Forall_app; split; [exact H2|now constructor].
      * exists l1', l2'. split; [|auto].
        rewrite <- E. rewrite <- app_assoc. reflexivity.
Qed.

(** [arr.reduce(step, arr[0])] on a non-empty array. *)
Lemma reduce_from_head (a : A) (arr : list A) :
  Forall D (a :: arr) ->
  exists l1 l2,
    a :: arr = l1 ++ reduce step a (a :: arr) :: l2 /\
    Forall (fun q => worse q (reduce step a (a :: arr))) l1 /\
    Forall (fun q => weakly q (reduce step a (a :: arr))) l2.
Proof.
  intros HD. unfold reduce. cbn [fold_left].
  replace (step a a) with a by (unfold step; now destruct (beats a a)).
  exact (fold_best arr [] a [] HD (Forall_nil _) (Forall_nil _)).
Qed.

End Best.

End JSArrayFacts.

(** ** The three windows of one cycle *)

Module CycleFacts.
Import JSArray JSArrayFacts.

Lemma pre_window_test T p :
  (timestamp p >=? preHalvingStart T) && (timestamp p <=? T) = true <->
  in_pre_window T p.
Proof.
  unfold in_pre_window, preHalvingStart, JSDate.MS_PER_DAY.
  rewrite andb_true_iff, Z.geb_le, Z.leb_le. lia.
Qed.

Lemma post_window_test T p :
  (timestamp p >? T) && (timestamp p <=? postHalvingEnd T) = true <->
  in_post_window T p.
Proof.
  unfold in_post_window, postHalvingEnd, JSDate.MS_PER_DAY.
  rewrite andb_true_iff, Z.gtb_ltb, Z.ltb_lt, Z.leb_le. lia.
Qed.

Lemma pre_Kept data T : Kept (in_pre_window T) data (preHalvingDataPoints data T).
Proof. apply filter_Kept. intros p. apply pre_window_test. Qed.

Lemma post_Kept data T : Kept (in_post_window T) data (postHalvingDataPoints data T).
Proof. apply filter_Kept. intros p. apply post_window_test. Qed.

Lemma after_Kept data T :
  Kept (fun p => timestamp (peak data T) < timestamp p) data (afterPeak data T).
Proof. apply filter_Kept. intros p. now rewrite Z.gtb_ltb, Z.ltb_lt. Qed.

Lemma well_formed_Kept (P : PricePoint -> Prop) data w :
  well_formed data -> Kept P data w -> well_formed w.
Proof.
  unfold well_formed. intros WF K. apply Forall_forall. intros p Hp.
  apply (Kept_In P data w K) in Hp. destruct Hp as [Hp _].
  revert p Hp. now apply Forall_forall.
Qed.

Lemma well_formed_slice0 n data : well_formed data -> well_formed (slice0 n data).
Proof.
  unfold well_formed. intros WF. apply Forall_forall. intros p Hp.
  apply slice0_In in Hp. revert p Hp. now apply Forall_forall.
Qed.

Lemma well_formed_num data :
  well_formed data -> Forall (fun p => is_nan (price p) = false) data.
Proof.
  apply Forall_impl. intros p. apply JSNumFacts.positive_not_nan.
Qed.

(** *** The peak *)

Lemma peak_empty data T : postHalvingDataPoints data T = [] -> peak data T = sentinel.
Proof. unfold peak. intros ->. reflexivity. Qed.

Lemma peak_In data T :
  postHalvingDataPoints data T <> [] -> In (peak data T) (postHalvingDataPoints data T).
Proof.
  unfold peak. destruct (postHalvingDataPoints data T) as [|a w]; [congruence|].
  intros _. rewrite at_index_0. cbn [hd_error].
  pose proof (reduce_In (fun p m => JSNum.gt (price p) (price m)) (a :: w) a) as H.
  destruct H as [H|H]; [left; exact H|exact H].
Qed.

Lemma first_max_reduce a w :
  Forall (fun p => is_nan (price p) = false) (a :: w) ->
  first_max (a :: w) (reduce higher a (a :: w)).
Proof.
  intros HD. unfold first_max, first_best.
  apply (reduce_from_head PricePoint
           (fun p m => JSNum.gt (price p) (price m))
           (fun q r => JSNum.lt (price q) (price r) = true)
           (fun q r => JSNum.le (price q) (price r) = true)
           (fun p => is_nan (price p) = false)); try exact HD.
  - intros m p _ _ B. exact B.
  - intros m p Dm Dp B. now apply JSNumFacts.not_lt_le.
  - intros q m p. apply JSNumFacts.lt_trans.
  - intros q m p. apply JSNumFacts.le_lt_trans.
Qed.

Lemma first_min_reduce a w :
  Forall (fun p => is_nan (price p) = false) (a :: w) ->
  first_min (a :: w) (reduce lower a (a :: w)).
Proof.
  intros HD. unfold first_min, first_best.
  apply (reduce_from_head PricePoint
           (fun p m => JSNum.lt (price p) (price m))
           (fun q r => JSNum.lt (price r) (price q) = true)
           (fun q r => JSNum.le (price r) (price q) = true)
           (fun p => is_nan (price p) = false)); try exact HD.
  - intros m p _ _ B. exact B.
  - intros m p Dm Dp B. now apply JSNumFacts.not_lt_le.
  - intros q m p H1 H2. now apply (JSNumFacts.lt_trans (price p) (price m) (price q)).
  - intros q m p H1 H2. now apply (JSNumFacts.lt_le_trans (price p) (price m) (price q)).
Qed.

Lemma peak_first_max data T :
  well_formed data ->
  postHalvingDataPoints data T <> [] ->
  first_max (postHalvingDataPoints data T) (peak data T).
Proof.
  intros WF NE.
  pose proof (well_formed_num _ (well_formed_Kept _ _ _ WF (post_Kept data T))) as HD.
  unfold peak. destruct (postHalvingDataPoints data T) as [|a w]; [congruence|].
  rewrite at_index_0. cbn [hd_error]. now apply first_max_reduce.
Qed.

Lemma peak_positive data T :
  well_formed data ->
  postHalvingDataPoints data T <> [] ->
  JSNum.positive (price (peak data T)) = true.
Proof.
  intros WF NE. pose proof (peak_In data T NE) as H.
  apply (Kept_In _ _ _ (post_Kept data T)) in H. destruct H as [H _].
  unfold well_formed in WF. rewrite Forall_forall in WF. now apply WF.
Qed.

Lemma peakPriceOf_price data T :
  well_formed data -> peakPriceOf data T = price (peak data T).
Proof.
  intros WF. unfold peakPriceOf.
  destruct (postHalvingDataPoints data T) as [|a w] eqn:E.
  - rewrite (peak_empty data T E). reflexivity.
  - apply JSNumFacts.or_else_positive. apply peak_positive; [exact WF|congruence].
Qed.

End CycleFacts.

(** ** The halving table *)

Lemma halvingEvents_dates :
  map (fun h => JSDate.Date_parse (h_date h)) halvingEvents =
  [Some 1354060800000; Some 1468022400000; Some 1589155200000; Some 1713484800000].
Proof. reflexivity. Qed.

Lemma backtest_map data : backtest data = map (analyse data) halvingEvents.
Proof. reflexivity. Qed.

Lemma sample_series_well_formed : well_formed sample_series.
Proof. unfold well_formed, sample_series. repeat constructor. Qed.

(** ** Claims about one cycle *)

Module Claims.
Import JSArray JSArrayFacts CycleFacts.

(** C3: the pre-window holds, in series order, the points with timestamp in
    [T - 365 days, T]; for a series of positive prices, startPrice is the
    price of its first point (0 when it is empty), halvingPrice the price of
    its last point (the event's priceAtHalving when it is empty), and
    preGain% = (halvingPrice - startPrice) / startPrice * 100. *)
Theorem C3_pre_window (data : list PricePoint) (halving : HalvingEvent) (T : Z) :
  well_formed data ->
  let w := preHalvingDataPoints data T in
  let a := preHalvingData (analysis data halving T) in
  Kept (in_pre_window T) data w /\
  startPrice a = hd 0%float (map price w) /\
  pre_halvingPrice a = last (map price w) (priceAtHalving halving) /\
  pre_percentageGain a =
    ((pre_halvingPrice a - startPrice a) / startPrice a * 100)%float.
Proof.
  intros WF w a.
  pose proof (pre_Kept data T) as K. fold w in K.
  pose proof (well_formed_Kept _ _ _ WF K) as WFw.
  split; [exact K|]. split; [|split; [|reflexivity]].
  - cbn. unfold startPriceOf. fold w. rewrite at_index_0.
    destruct w as [|p w']; [reflexivity|]. cbn.
    apply JSNumFacts.or_else_positive. now inversion WFw.
  - cbn. unfold halvingPriceOf. fold w.
    destruct (snoc_cases w) as [E|(w' & p & E)]; rewrite E.
    + reflexivity.
    + rewrite at_index_last_snoc, map_app. cbn [map]. rewrite last_last.
      apply JSNumFacts.or_else_positive.
      rewrite E in WFw. unfold well_formed in WFw. rewrite Forall_app in WFw.
      destruct WFw as [_ WFp]. now inversion WFp.
Qed.

Lemma C3_pre_window_witness :
  well_formed sample_series /\
  startPrice (preHalvingData (analysis sample_series halving1 (day 0))) = 2.5%float /\
  pre_halvingPrice (preHalvingData (analysis sample_series halving1 (day 0))) = 12.5%float /\
  pre_percentageGain (preHalvingData (analysis sample_series halving1 (day 0))) = 400%float.
Proof.
  split; [exact sample_series_well_formed|].
  pose proof (C3_pre_window sample_series halving1 (day 0) sample_series_well_formed) as H.
  cbv zeta in H. destruct H as (_ & Hs & Hh & Hg).
  split; [exact Hs|]. split; [exact Hh|]. rewrite Hg. reflexivity.
Defined.

(** C2: the post-window holds, in series order, the points with timestamp in
    (T, T + 730 days]; for a series of positive prices the peak is the
    earliest point of that window attaining its maximum price, and the
    zero-price sentinel when the window is empty;
    daysToPeak = floor((peak.timestamp - T) / 1 day) and
    postGain% = (peak.price - halvingPrice) / halvingPrice * 100. *)
Theorem C2_peak (data : list PricePoint) (halving : HalvingEvent) (T : Z) :
  well_formed data ->
  let w := postHalvingDataPoints data T in
  let pk := peak data T in
  let a := postHalvingData (analysis data halving T) in
  Kept (in_post_window T) data w /\
  (w <> [] -> first_max w pk) /\
  (w = [] -> pk = mkPoint 0 "" 0%float) /\
  peakPrice a = price pk /\
  peakDate a = date pk /\
  daysToTop a = (timestamp pk - T) / JSDate.MS_PER_DAY /\
  post_percentageGain a =
    ((price pk - post_halvingPrice a) / post_halvingPrice a * 100)%float.
Proof.
  intros WF w pk a.
  split; [apply post_Kept|].
  split; [intros NE; now apply peak_first_max|].
  split; [apply peak_empty|].
  assert (P : peakPrice a = price pk) by (cbn; now apply peakPriceOf_price).
  split; [exact P|].
  split; [cbn; unfold peakDateOf; fold pk; now destruct (date pk)|].
  split; [reflexivity|].
  cbn. unfold postHalvingGain, JSNum.pct. cbn in P. now rewrite P.
Qed.

Lemma C2_peak_witness :
  well_formed sample_series /\
  first_max (postHalvingDataPoints sample_series (day 0)) (peak sample_series (day 0)) /\
  peak sample_series (day 0) = mkPoint (day 370) "2013-12-03" 1000%float /\
  daysToTop (postHalvingData (analysis sample_series halving1 (day 0))) = 370 /\
  post_percentageGain (postHalvingData (analysis sample_series halving1 (day 0))) = 7900%float.
Proof.
  split; [exact sample_series_well_formed|].
  pose proof (C2_peak sample_series halving1 (day 0) sample_series_well_formed) as H.
  cbv zeta in H. destruct H as (_ & Hmax & _ & _ & _ & Hd & Hg).
  split; [apply Hmax; discriminate|].
  split; [reflexivity|]. split; [rewrite Hd; reflexivity|]. rewrite Hg. reflexivity.
Defined.

(** C4: the peak lies in the post-halving window (T, T + 730 days] and the
    trough lies after the peak, among the first 365 points after it; when a
    window holds no point the degenerate record takes its place: the
    zero-price sentinel for the peak, and for the trough a record at the
    peak price (no change from peak to bottom) with empty date. *)
Theorem C4_window_invariant (data : list PricePoint) (halving : HalvingEvent) (T : Z) :
  let w := postHalvingDataPoints data T in
  let pk := peak data T in
  let after := afterPeak data T in
  let trough := bottomAfterPeak data T in
  let a := analysis data halving T in
  (w <> [] -> In pk data /\ in_post_window T pk) /\
  (w = [] -> pk = mkPoint 0 "" 0%float) /\
  (after <> [] ->
     In trough (slice0 365 after) /\ In trough data /\ timestamp pk < timestamp trough) /\
  (after = [] ->
     trough = mkPoint 0 "" (peakPrice (postHalvingData a)) /\
     bottomPrice (crashData a) = peakPrice (postHalvingData a) /\
     crashDate (crashData a) = "").
Proof.
  intros w pk after trough a.
  split; [|split; [apply peak_empty|split]].
  - intros NE. apply (Kept_In _ _ _ (post_Kept data T)). now apply peak_In.
  - intros NE.
    assert (I : In trough (slice0 365 after)).
    { unfold trough, bottomAfterPeak. fold after.
      destruct after as [|p r]; [congruence|]. rewrite at_index_0. cbn [hd_error].
      pose proof (reduce_In (fun p m => JSNum.lt (price p) (price m))
                            (slice0 365 (p :: r)) p) as H.
      destruct H as [H|H]; [|exact H].
      unfold lower. rewrite <- H. now left. }
    split; [exact I|].
    apply slice0_In in I. now apply (Kept_In _ _ _ (after_Kept data T)) in I.
  - intros E. unfold trough, a. cbn. unfold bottomAfterPeak. fold after. rewrite E.
    repeat split.
Qed.

Lemma C4_window_invariant_witness :
  in_post_window (day 0) (peak sample_series (day 0)) /\
  timestamp (peak sample_series (day 0)) < timestamp (bottomAfterPeak sample_series (day 0)) /\
  bottomAfterPeak sample_series (day 0) = mkPoint (day 600) "2014-07-21" 200%float.
Proof.
  pose proof (C4_window_invariant sample_series halving1 (day 0)) as H.
  cbv zeta in H. destruct H as (Hp & _ & Ht & _).
  split; [apply Hp; discriminate|]. split; [apply Ht; discriminate|reflexivity].
Defined.

(** C7: when the post-halving window is empty the analysis carries the
    zero-price sentinel peak, postGain% is computed against it, and it is
    exactly -100 whenever halvingPrice is a positive (finite) number. *)
Theorem C7_empty_post_window (data : list PricePoint) (halving : HalvingEvent) (T : Z) :
  postHalvingDataPoints data T = [] ->
  let a := postHalvingData (analysis data halving T) in
  peak data T = mkPoint 0 "" 0%float /\
  peakPrice a = 0%float /\
  peakDate a = "" /\
  post_percentageGain a =
    ((0 - post_halvingPrice a) / post_halvingPrice a * 100)%float /\
  (JSNum.positive (post_halvingPrice a) = true ->
   post_percentageGain a = (-100)%float).
Proof.
  intros E a. pose proof (peak_empty data T E) as P.
  assert (PP : peakPriceOf data T = 0%float) by (unfold peakPriceOf; now rewrite P).
  split; [exact P|]. split; [exact PP|].
  split; [cbn; unfold peakDateOf; now rewrite P|].
  assert (G : post_percentageGain a = JSNum.pct 0 (post_halvingPrice a)).
  { cbn. unfold postHalvingGain. now rewrite PP. }
  split; [exact G|].
  intros Hpos. rewrite G. now apply JSNumFacts.pct_from_zero.
Qed.

Lemma C7_empty_post_window_witness :
  postHalvingDataPoints sample_series (JSDate.getTime (h_date halving4)) = [] /\
  post_halvingPrice (postHalvingData (analyse sample_series halving4)) = 63812%float /\
  post_percentageGain (postHalvingData (analyse sample_series halving4)) = (-100)%float.
Proof.
  split; [reflexivity|]. split; [reflexivity|].
  pose proof (C7_empty_post_window sample_series halving4
                (JSDate.getTime (h_date halving4)) eq_refl) as H.
  cbv zeta in H. destruct H as (_ & _ & _ & _ & H). apply H. reflexivity.
Defined.

(** C8: for the series [(t0,100); (t1,200); (t2,150)] and an event at t1,
    with t0 in the pre-window and t2 in the post-window, the pre-window is
    [t0; t1], the post-window is [t2], preGain% = 100, the peak is (t2,150)
    and postGain% = -25. *)
Theorem C8_three_point_example (halving : HalvingEvent) (t0 t1 t2 : Z) (d0 d1 d2 : string) :
  in_pre_window t1 (mkPoint t0 d0 100%float) ->
  in_post_window t1 (mkPoint t2 d2 150%float) ->
  let series := [mkPoint t0 d0 100%float; mkPoint t1 d1 200%float; mkPoint t2 d2 150%float] in
  let a := analysis series halving t1 in
  preHalvingDataPoints series t1 = [mkPoint t0 d0 100%float; mkPoint t1 d1 200%float] /\
  postHalvingDataPoints series t1 = [mkPoint t2 d2 150%float] /\
  pre_percentageGain (preHalvingData a) = 100%float /\
  peak series t1 = mkPoint t2 d2 150%float /\
  post_percentageGain (postHalvingData a) = (-25)%float.
Proof.
  intros H0 H2 series a.
  pose proof H0 as B0. pose proof H2 as B2.
  unfold in_pre_window, in_post_window, JSDate.MS_PER_DAY in B0, B2. cbn in B0, B2.
  assert (Epre : preHalvingDataPoints series t1 =
                 [mkPoint t0 d0 100%float; mkPoint t1 d1 200%float]).
  { unfold preHalvingDataPoints, series, preHalvingStart. cbn [filter timestamp].
    replace (t0 >=? _) with true by (symmetry; apply Z.geb_le; lia).
    replace (t0 <=? t1) with true by (symmetry; apply Z.leb_le; lia).
    replace (t1 >=? _) with true by (symmetry; apply Z.geb_le; lia).
    replace (t1 <=? t1) with true by (symmetry; apply Z.leb_le; lia).
    replace (t2 <=? t1) with false by (symmetry; apply Z.leb_gt; lia).
    cbn. rewrite andb_false_r. reflexivity. }
  assert (Epost : postHalvingDataPoints series t1 = [mkPoint t2 d2 150%float]).
  { unfold postHalvingDataPoints, series, postHalvingEnd. cbn [filter timestamp].
    replace (t0 >? t1) with false by (symmetry; rewrite Z.gtb_ltb; apply Z.ltb_ge; lia).
    replace (t1 >? t1) with false by (symmetry; rewrite Z.gtb_ltb; apply Z.ltb_ge; lia).
    replace (t2 >? t1) with true by (symmetry; rewrite Z.gtb_ltb; apply Z.ltb_lt; lia).
    replace (t2 <=? _) with true by (symmetry; apply Z.leb_le; lia).
    reflexivity. }
  assert (Epeak : peak series t1 = mkPoint t2 d2 150%float).
  { unfold peak. rewrite Epost. reflexivity. }
  split; [exact Epre|]. split; [exact Epost|].
  split; [|split; [exact Epeak|]].
  - cbn. unfold preHalvingGain, halvingPriceOf, startPriceOf. rewrite Epre. reflexivity.
  - cbn. unfold postHalvingGain, peakPriceOf, halvingPriceOf. rewrite Epeak, Epre.
    reflexivity.
Qed.

Lemma C8_three_point_example_witness :
  in_pre_window (day 0) (mkPoint (day (-30)) "2012-10-29" 100%float) /\
  in_post_window (day 0) (mkPoint (day 30) "2012-12-28" 150%float) /\
  pre_percentageGain
    (preHalvingData
       (analysis [mkPoint (day (-30)) "2012-10-29" 100%float;
                  mkPoint (day 0) "2012-11-28" 200%float;
                  mkPoint (day 30) "2012-12-28" 150%float] halving1 (day 0))) = 100%float /\
  post_percentageGain
    (postHalvingData
       (analysis [mkPoint (day (-30)) "2012-10-29" 100%float;
                  mkPoint (day 0) "2012-11-28" 200%float;
                  mkPoint (day 30) "2012-12-28" 150%float] halving1 (day 0))) = (-25)%float.
Proof.
  assert (H0 : in_pre_window (day 0) (mkPoint (day (-30)) "2012-10-29" 100%float))
    by (unfold in_pre_window; cbn; lia).
  assert (H2 : in_post_window (day 0) (mkPoint (day 30) "2012-12-28" 150%float))
    by (unfold in_post_window; cbn; lia).
  pose proof (C8_three_point_example halving1 (day (-30)) (day 0) (day 30)
                "2012-10-29" "2012-11-28" "2012-12-28" H0 H2) as H.
  cbv zeta in H. destruct H as (_ & _ & Hpre & _ & Hpost).
  split; [exact H0|]. split; [exact H2|]. split; [exact Hpre|exact Hpost].
Defined.

(** C10: a zero startPrice makes preGain% non-finite and a zero
    halvingPrice makes postGain% non-finite; the record carries the raw
    quotient, and the analysis is a total function (nothing is raised). *)
Theorem C10_zero_divisor (data : list PricePoint) (halving : HalvingEvent) (T : Z) :
  let a := analysis data halving T in
  pre_percentageGain (preHalvingData a) =
    JSNum.pct (pre_halvingPrice (preHalvingData a)) (startPrice (preHalvingData a)) /\
  post_percentageGain (postHalvingData a) =
    JSNum.pct (peakPrice (postHalvingData a)) (post_halvingPrice (postHalvingData a)) /\
  (is_zero (startPrice (preHalvingData a)) = true ->
   JSNum.isFinite (pre_percentageGain (preHalvingData a)) = false) /\
  (is_zero (post_halvingPrice (postHalvingData a)) = true ->
   JSNum.isFinite (post_percentageGain (postHalvingData a)) = false).
Proof.
  intros a. split; [reflexivity|]. split; [reflexivity|].
  split; intros Z; cbn in *; now apply JSNumFacts.pct_zero_divisor.
Qed.

Lemma C10_zero_divisor_witness :
  is_zero (startPrice (preHalvingData (analysis [] halving_free (day 0)))) = true /\
  is_zero (post_halvingPrice (postHalvingData (analysis [] halving_free (day 0)))) = true /\
  JSNum.isFinite (pre_percentageGain (preHalvingData (analysis [] halving_free (day 0)))) = false /\
  JSNum.isFinite (post_percentageGain (postHalvingData (analysis [] halving_free (day 0)))) = false.
Proof.
  pose proof (C10_zero_divisor [] halving_free (day 0)) as H.
  cbv zeta in H. destruct H as (_ & _ & Hpre & Hpost).
  split; [reflexivity|]. split; [reflexivity|].
  split; [apply Hpre; reflexivity|apply Hpost; reflexivity].
Defined.

(** Outside the data model the [||] defaults also fire on a falsy price: a
    closing price of 0 in the pre-window is replaced by [priceAtHalving]. *)
Remark zero_price_falls_through :
  halvingPriceOf [mkPoint (day 0) "2012-11-28" 0%float] halving1 (day 0) = 12.35%float /\
  startPriceOf [mkPoint (day 0) "2012-11-28" nan] (day 0) = 0%float.
Proof. split; reflexivity. Qed.

(** An infinite halving price is above zero, yet the gain against the
    sentinel peak is NaN: finiteness is needed for the -100 of C7. *)
Remark infinite_price_gain :
  JSNum.lt 0 infinity = true /\
  halvingPriceOf [mkPoint (day 0) "2012-11-28" infinity] halving1 (day 0) = infinity /\
  postHalvingGain [mkPoint (day 0) "2012-11-28" infinity] halving1 (day 0) = nan.
Proof. repeat split. Qed.

(** A NaN price met first is never displaced: comparisons with it are false. *)
Remark nan_price_sticks :
  price (peak [mkPoint (day 1) "2012-11-29" nan; mkPoint (day 2) "2012-11-30" 5%float]
              (day 0)) = nan.
Proof. reflexivity. Qed.

(** With no point after the epoch the sentinel peak is [floor (-T / 1 day)]
    days away. *)
Remark sentinel_days_to_top :
  daysToTop (postHalvingData (analyse [] halving1)) = -15672.
Proof. reflexivity. Qed.

(** *** The crash window *)

Lemma trough_first_min (data : list PricePoint) (T : Z) :
  well_formed data ->
  slice0 365 (afterPeak data T) <> [] ->
  first_min (slice0 365 (afterPeak data T)) (bottomAfterPeak data T).
Proof.
  intros WF NE.
  pose proof (well_formed_num _
    (well_formed_slice0 365 _ (well_formed_Kept _ _ _ WF (after_Kept data T)))) as HD.
  unfold bottomAfterPeak. destruct (afterPeak data T) as [|p r]; [now destruct NE|].
  rewrite at_index_0. cbn [hd_error]. now apply first_min_reduce.
Qed.

Lemma trough_default (data : list PricePoint) (T : Z) :
  slice0 365 (afterPeak data T) = [] ->
  bottomAfterPeak data T = mkPoint 0 "" (peakPriceOf data T).
Proof.
  intros E. apply slice0_nil_iff in E; [|lia].
  unfold bottomAfterPeak. now rewrite E.
Qed.

(** C1, as the code has it: the crash window is the first 365, in series
    order, of the points with timestamp strictly after the peak's; for a
    series of positive prices the trough is the first-occurring minimum of
    that window, and when the window is empty the trough is
    {price: peak.price, date: '', timestamp: 0}.  The drawdown
    (trough.price - peak.price) / peak.price * 100 is then 0 when the peak
    is a point of the post-halving window, and NaN (0/0) when the peak is
    itself the zero-price sentinel. *)
Theorem C1_crash_window (data : list PricePoint) (halving : HalvingEvent) (T : Z) :
  well_formed data ->
  let pk := peak data T in
  let after := afterPeak data T in
  let window := slice0 365 after in
  let trough := bottomAfterPeak data T in
  let a := crashData (analysis data halving T) in
  Kept (fun p => timestamp pk < timestamp p) data after /\
  (window <> [] -> first_min window trough) /\
  (window = [] ->
     trough = mkPoint 0 "" (price pk) /\
     (postHalvingDataPoints data T <> [] -> percentageFromPeak a = 0%float) /\
     (postHalvingDataPoints data T = [] -> percentageFromPeak a = nan)) /\
  bottomPrice a = price trough /\
  crashDate a = date trough /\
  percentageFromPeak a = ((price trough - price pk) / price pk * 100)%float.
Proof.
  intros WF pk after window trough a.
  pose proof (peakPriceOf_price data T WF) as PP. fold pk in PP.
  split; [apply after_Kept|].
  split; [now apply trough_first_min|].
  split; [|split; [reflexivity|split; [reflexivity|]]].
  - intros E. pose proof (trough_default data T E) as D. rewrite PP in D.
    split; [exact D|].
    change (percentageFromPeak a) with (crashPercentage data T).
    unfold crashPercentage. rewrite D, PP. cbn [price]. split.
    + intros NE. apply JSNumFacts.pct_self. now apply peak_positive.
    + intros EP. unfold pk. rewrite (peak_empty data T EP). reflexivity.
  - change (percentageFromPeak a) with (crashPercentage data T).
    unfold crashPercentage, JSNum.pct. now rewrite PP.
Qed.

Lemma C1_crash_window_witness :
  well_formed sample_series /\
  first_min (slice0 365 (afterPeak sample_series (day 0)))
            (bottomAfterPeak sample_series (day 0)) /\
  bottomAfterPeak sample_series (day 0) = mkPoint (day 600) "2014-07-21" 200%float /\
  percentageFromPeak (crashData (analysis sample_series halving1 (day 0))) = (-80)%float.
Proof.
  split; [exact sample_series_well_formed|].
  pose proof (C1_crash_window sample_series halving1 (day 0) sample_series_well_formed) as H.
  cbv zeta in H. destruct H as (_ & Hmin & _ & _ & _ & Hpct).
  split; [apply Hmin; discriminate|]. split; [reflexivity|]. rewrite Hpct. reflexivity.
Defined.

(** C1 as stated fails on the empty series: the crash window is empty, the
    trough is the default record, and the drawdown is NaN, not 0. *)
Lemma C1_drawdown_counterexample :
  well_formed [] /\
  slice0 365 (afterPeak [] (JSDate.getTime (h_date halving1))) = [] /\
  bottomAfterPeak [] (JSDate.getTime (h_date halving1)) = mkPoint 0 "" 0%float /\
  percentageFromPeak (crashData (analyse [] halving1)) = nan /\
  PrimFloat.eqb (percentageFromPeak (crashData (analyse [] halving1))) 0 = false.
Proof. repeat split. constructor. Qed.

(** C6, as the code has it: when the post-halving window is empty the
    sentinel peak has timestamp 0 and price 0, so the crash-window filter
    keeps the points with positive timestamp -- the whole series when every
    timestamp is positive; the trough is then the first minimum of the first
    365 points of the series, and the drawdown is computed with divisor 0. *)
Theorem C6_sentinel_peak (data : list PricePoint) (halving : HalvingEvent) (T : Z) :
  well_formed data ->
  data <> [] ->
  postHalvingDataPoints data T = [] ->
  let trough := bottomAfterPeak data T in
  let a := crashData (analysis data halving T) in
  timestamp (peak data T) = 0 /\
  Kept (fun p => 0 < timestamp p) data (afterPeak data T) /\
  (Forall (fun p => 0 < timestamp p) data ->
     afterPeak data T = data /\ first_min (slice0 365 data) trough) /\
  percentageFromPeak a = ((price trough - 0) / 0 * 100)%float.
Proof.
  intros WF NE EP trough a.
  pose proof (peak_empty data T EP) as P.
  assert (K : Kept (fun p => 0 < timestamp p) data (afterPeak data T)).
  { pose proof (after_Kept data T) as K. now rewrite P in K. }
  split; [now rewrite P|]. split; [exact K|]. split.
  - intros Hpos. pose proof (Kept_all _ _ Hpos _ K) as E.
    split; [exact E|].
    rewrite <- E at 1. apply trough_first_min; [exact WF|].
    rewrite E. destruct data; [congruence|discriminate].
  - change (percentageFromPeak a) with (crashPercentage data T).
    unfold crashPercentage, peakPriceOf. rewrite P. reflexivity.
Qed.

Lemma C6_sentinel_peak_witness :
  well_formed sample_series /\
  postHalvingDataPoints sample_series (JSDate.getTime (h_date halving4)) = [] /\
  afterPeak sample_series (JSDate.getTime (h_date halving4)) = sample_series /\
  bottomAfterPeak sample_series (JSDate.getTime (h_date halving4)) =
    mkPoint (day (-365)) "2011-11-29" 2.5%float /\
  timestamp (bottomAfterPeak sample_series (JSDate.getTime (h_date halving4))) <
    JSDate.getTime (h_date halving4) /\
  percentageFromPeak (crashData (analyse sample_series halving4)) = infinity.
Proof.
  assert (NE : sample_series <> []) by discriminate.
  assert (Hpos : Forall (fun p => 0 < timestamp p) sample_series)
    by (repeat constructor).
  pose proof (C6_sentinel_peak sample_series halving4 (JSDate.getTime (h_date halving4))
                sample_series_well_formed NE eq_refl) as H.
  cbv zeta in H. destruct H as (_ & _ & Hall & Hpct).
  destruct (Hall Hpos) as [Hafter _].
  split; [exact sample_series_well_formed|]. split; [reflexivity|].
  split; [exact Hafter|]. split; [reflexivity|]. split; [reflexivity|].
  unfold analyse. rewrite Hpct. reflexivity.
Defined.

(** C6 as stated fails for a point at the epoch: the post-halving window is
    empty, yet the filter keeps nothing of the (non-empty) series and the
    trough is the default record, not a point of the series. *)
Lemma C6_epoch_counterexample :
  well_formed [mkPoint 0 "1970-01-01" 5%float] /\
  postHalvingDataPoints [mkPoint 0 "1970-01-01" 5%float]
                        (JSDate.getTime (h_date halving1)) = [] /\
  afterPeak [mkPoint 0 "1970-01-01" 5%float] (JSDate.getTime (h_date halving1)) = [] /\
  bottomAfterPeak [mkPoint 0 "1970-01-01" 5%float] (JSDate.getTime (h_date halving1)) =
    mkPoint 0 "" 0%float.
Proof. repeat split. repeat constructor. Qed.

End Claims.

(** ** Claims about the session *)

Module SessionClaims.

(** C9: [performBacktest] replaces the analysis list by a function of the
    series and the fixed table alone: whatever the state before, the list
    afterwards is [map (analyse data) halvingEvents], so a second run on the
    same series leaves the state as the first run left it. *)
Theorem C9_backtest_deterministic (data : list PricePoint) (st st' : AppState) :
  cycleAnalysis (performBacktest data st) = map (analyse data) halvingEvents /\
  cycleAnalysis (performBacktest data st) = cycleAnalysis (performBacktest data st') /\
  performBacktest data (performBacktest data st) = performBacktest data st /\
  List.length (cycleAnalysis (performBacktest data st)) = List.length halvingEvents.
Proof. repeat split. Qed.

Section Load.

Variable format : Z -> option string.

Lemma fetch_failure (r : Response) (e : Exn) (st : AppState) :
  formattedData format r = inl e ->
  fetchHistoricalData format r st =
  mkState (priceData st) (cycleAnalysis st) false
          (console st ++ [("Error fetching data:", e)]).
Proof. unfold fetchHistoricalData. intros ->. reflexivity. Qed.

Lemma fetch_success (r : Response) (formatted : list PricePoint) (st : AppState) :
  formattedData format r = inr formatted ->
  fetchHistoricalData format r st =
  mkState formatted (backtest formatted) false (console st).
Proof. unfold fetchHistoricalData. intros ->. reflexivity. Qed.

(** C5, as the code has it: a failed load is caught and logged once, the
    price series and the analysis list stay empty, and the loading flag is
    cleared, so the page leaves the loading screen and renders the dashboard
    over an empty series and an empty analysis list. *)
Theorem C5_failed_load (r : Response) (e : Exn) :
  formattedData format r = inl e ->
  let st := session format r in
  console st = [("Error fetching data:", e)] /\
  priceData st = [] /\
  cycleAnalysis st = [] /\
  loading st = false /\
  render st = Dashboard [] [].
Proof.
  intros F st. unfold st, session. rewrite (fetch_failure r e initialState F).
  repeat split.
Qed.

End Load.

Lemma C5_failed_load_witness :
  formattedData (fun _ => Some "2012-11-28")
                (Json (Some [Pair 1354060800000 12.5%float; NotIndexable])) = inl TypeError /\
  priceData (session (fun _ => Some "2012-11-28")
                     (Json (Some [Pair 1354060800000 12.5%float; NotIndexable]))) = [] /\
  render (session (fun _ => Some "2012-11-28")
                  (Json (Some [Pair 1354060800000 12.5%float; NotIndexable]))) = Dashboard [] [].
Proof.
  pose proof (C5_failed_load (fun _ => Some "2012-11-28")
                (Json (Some [Pair 1354060800000 12.5%float; NotIndexable]))
                TypeError eq_refl) as H.
  cbv zeta in H. destruct H as (_ & Hp & _ & _ & Hr).
  split; [reflexivity|]. split; [exact Hp|exact Hr].
Defined.

(** C5 as stated fails: after a rejected request the view is the dashboard
    (over empty data), not the loading screen. *)
Lemma C5_loading_counterexample :
  formattedData (fun _ => None) Rejected = inl NetworkError /\
  loading (session (fun _ => None) Rejected) = false /\
  render (session (fun _ => None) Rejected) = Dashboard [] [] /\
  render (session (fun _ => None) Rejected) <> LoadingScreen.
Proof. repeat split. discriminate. Qed.

End SessionClaims.

(** * Further properties of the code *)

(** ** More on JavaScript numbers *)

Module JSNumMore.
Import JSNum JSNumFacts.

Lemma lt_irrefl x : lt x x = false.
Proof.
  unfold lt. rewrite ltb_spec. unfold SFltb.
  destruct (Prim2SF x) as [[|]|[|]| |[|] m e]; cbn; try reflexivity.
  all: rewrite Z.compare_refl;
    change (PosDef.Pos.compare_cont Eq m m) with (Pos.compare m m);
    rewrite Pos.compare_refl; reflexivity.
Qed.

Lemma lt_false_nan_r a b : is_nan b = true -> lt a b = false.
Proof.
  unfold lt. rewrite is_nan_spec, ltb_spec. unfold SFltb.
  destruct (Prim2SF b); try discriminate. intros _. now destruct (Prim2SF a).
Qed.

Lemma lt_false_nan_l a b : is_nan a = true -> lt a b = false.
Proof.
  unfold lt. rewrite is_nan_spec, ltb_spec. unfold SFltb.
  destruct (Prim2SF a); try discriminate. reflexivity.
Qed.

Lemma lt_true_num a b : lt a b = true -> is_nan a = false /\ is_nan b = false.
Proof.
  intros H. split.
  - destruct (is_nan a) eqn:E; [|reflexivity]. now rewrite (lt_false_nan_l a b E) in H.
  - destruct (is_nan b) eqn:E; [|reflexivity]. now rewrite (lt_false_nan_r a b E) in H.
Qed.

Lemma lt_asym a b : lt a b = true -> lt b a = false.
Proof.
  intros H. destruct (lt b a) eqn:E; [|reflexivity].
  pose proof (lt_trans a b a H E) as K. now rewrite lt_irrefl in K.
Qed.



Lemma truthy_or_else x d : truthy d = true -> truthy (or_else x d) = true.
Proof. unfold or_else. intros H. now destruct (truthy x) eqn:E. Qed.

Lemma truthy_not_zero x : truthy x = true -> is_zero x = false.
Proof. unfold truthy. now destruct (is_zero x). Qed.

(** A rise from nothing is [+Infinity %]. *)
Lemma pct_over_zero h : positive h = true -> pct h 0 = infinity.
Proof.
  rewrite positive_spec. intros H. unfold pct.
  apply Prim2SF_inj. rewrite mul_spec, div_spec, sub_spec.
  change (Prim2SF 0) with (S754_zero false).
  change (Prim2SF 100) with (S754_finite false 7036874417766400 (-46)).
  destruct (Prim2SF h) as [s|s| |[|] m e]; try discriminate. reflexivity.
Qed.

Lemma add_not_finite_l x y : isFinite x = false -> isFinite (x + y)%float = false.
Proof.
  rewrite !isFinite_spec, add_spec.
  destruct (Prim2SF x) as [sx|[|]| |sx mx ex]; try discriminate; intros _;
    destruct (Prim2SF y) as [sy|[|]| |sy my ey]; reflexivity.
Qed.

Lemma add_not_finite_r x y : isFinite y = false -> isFinite (x + y)%float = false.
Proof.
  rewrite !isFinite_spec, add_spec.
  destruct (Prim2SF y) as [sy|[|]| |sy my ey]; try discriminate; intros _;
    destruct (Prim2SF x) as [sx|[|]| |sx mx ex]; reflexivity.
Qed.

Lemma div_not_finite x d :
  isFinite x = false -> positive d = true -> isFinite (x / d)%float = false.
Proof.
  rewrite !isFinite_spec, positive_spec, div_spec.
  destruct (Prim2SF d) as [s|s| |[|] m e]; try discriminate.
  destruct (Prim2SF x) as [sx|[|]| |sx mx ex]; try discriminate; reflexivity.
Qed.

End JSNumMore.

(** ** More on one cycle *)

Module CycleMore.
Import JSArray JSArrayFacts CycleFacts.

Section NeverBeaten.

Variable A : Type.
Variable beats : A -> A -> bool.

Hypothesis beats_irrefl : forall p, beats p p = false.
Hypothesis beats_step :
  forall m p q, beats q m = false -> beats p m = true -> beats q p = false.



End NeverBeaten.



(** *** The two windows of an event *)

Lemma filter_disjoint_length {A : Type} (f g : A -> bool) (l : list A) :
  (forall x, f x = true -> g x = true -> False) ->
  (List.length (filter f l) + List.length (filter g l) <= List.length l)%nat.
Proof.
  intros D. induction l as [|x l IH]; cbn; [lia|].
  destruct (f x) eqn:F, (g x) eqn:G; cbn; try lia.
  exfalso. now apply (D x).
Qed.

(** X2: the pre- and post-window of an event share no point, together they
    hold exactly the points of the series with timestamp in
    [T - 365 days, T + 730 days], and their sizes add up to at most the
    length of the series. *)
Theorem windows_partition (data : list PricePoint) (T : Z) :
  (forall p, In p (preHalvingDataPoints data T) ->
             In p (postHalvingDataPoints data T) -> False) /\
  (forall p, In p (preHalvingDataPoints data T) \/ In p (postHalvingDataPoints data T) <->
             In p data /\
             T - 365 * JSDate.MS_PER_DAY <= timestamp p <= T + 730 * JSDate.MS_PER_DAY) /\
  JSArray.length (preHalvingDataPoints data T) +
  JSArray.length (postHalvingDataPoints data T) <= JSArray.length data.
Proof.
  pose proof (Kept_In _ _ _ (pre_Kept data T)) as Hpre.
  pose proof (Kept_In _ _ _ (post_Kept data T)) as Hpost.
  split; [|split].
  - intros p H1 H2. apply Hpre in H1. apply Hpost in H2.
    unfold in_pre_window, in_post_window in *. lia.
  - intros p. rewrite Hpre, Hpost.
    unfold in_pre_window, in_post_window, JSDate.MS_PER_DAY. cbn. split.
    + intros [[? ?]|[? ?]]; split; auto; lia.
    + intros [? ?]. destruct (Z_le_gt_dec (timestamp p) T); [left|right]; split; auto; lia.
  - unfold JSArray.length, preHalvingDataPoints, postHalvingDataPoints.
    pose proof (filter_disjoint_length
      (fun d => (timestamp d >=? preHalvingStart T) && (timestamp d <=? T))
      (fun d => (timestamp d >? T) && (timestamp d <=? postHalvingEnd T)) data) as L.
    assert (D : forall x : PricePoint,
      (timestamp x >=? preHalvingStart T) && (timestamp x <=? T) = true ->
      (timestamp x >? T) && (timestamp x <=? postHalvingEnd T) = true -> False).
    { intros x H1 H2. apply pre_window_test in H1. apply post_window_test in H2.
      unfold in_pre_window, in_post_window in *. lia. }
    specialize (L D). lia.
Qed.

(** X3: when the post-window holds a point, the peak is between 0 and 730
    whole days after the halving and the post-window counts between 1 point
    and the whole series. *)
Theorem days_to_top_bounds (data : list PricePoint) (halving : HalvingEvent) (T : Z) :
  postHalvingDataPoints data T <> [] ->
  let a := postHalvingData (analysis data halving T) in
  0 <= daysToTop a <= 730 /\
  1 <= post_days a <= JSArray.length data.
Proof.
  intros NE a. split.
  - pose proof (peak_In data T NE) as H.
    apply (Kept_In _ _ _ (post_Kept data T)) in H. destruct H as [_ H].
    unfold in_post_window, JSDate.MS_PER_DAY in H. cbn in H.
    change (daysToTop a) with ((timestamp (peak data T) - T) / (24 * 60 * 60 * 1000)).
    change (24 * 60 * 60 * 1000) with 86400000.
    split.
    + apply Z.div_pos; lia.
    + apply Z.div_le_upper_bound; lia.
  - change (post_days a) with (JSArray.length (postHalvingDataPoints data T)).
    split.
    + unfold JSArray.length. destruct (postHalvingDataPoints data T); [congruence|cbn; lia].
    + unfold JSArray.length, postHalvingDataPoints.
      pose proof (filter_length_le
        (fun d => (timestamp d >? T) && (timestamp d <=? postHalvingEnd T)) data). lia.
Qed.

Lemma days_to_top_bounds_witness :
  postHalvingDataPoints sample_series (day 0) <> [] /\
  0 <= daysToTop (postHalvingData (analysis sample_series halving1 (day 0))) <= 730 /\
  post_days (postHalvingData (analysis sample_series halving1 (day 0))) = 6.
Proof.
  assert (NE : postHalvingDataPoints sample_series (day 0) <> []) by discriminate.
  pose proof (days_to_top_bounds sample_series halving1 (day 0) NE) as H.
  cbv zeta in H. destruct H as [H _].
  split; [exact NE|]. split; [exact H|reflexivity].
Defined.

(** *** Ascending series *)

Lemma filter_all {A : Type} (f : A -> bool) (l : list A) :
  Forall (fun x => f x = true) l -> filter f l = l.
Proof.
  induction 1 as [|x l Hx _ IH]; cbn; [reflexivity|]. now rewrite Hx, IH.
Qed.

Lemma filter_none {A : Type} (f : A -> bool) (l : list A) :
  Forall (fun x => f x = false) l -> filter f l = [].
Proof.
  induction 1 as [|x l Hx _ IH]; cbn; [reflexivity|]. now rewrite Hx, IH.
Qed.

Lemma ascending_after (x : PricePoint) (data : list PricePoint) :
  ascending data ->
  In x data ->
  exists before,
    data = before ++ x :: filter (fun d => timestamp d >? timestamp x) data /\
    Forall (fun p => timestamp p < timestamp x) before.
Proof.
  unfold ascending. induction 1 as [|a l S IH F]; intros I; [destruct I|].
  destruct I as [->|I].
  - exists []. split; [|constructor]. cbn.
    replace (timestamp x >? timestamp x) with false
      by (symmetry; rewrite Z.gtb_ltb; apply Z.ltb_irrefl).
    rewrite filter_all; [reflexivity|].
    eapply Forall_impl; [|exact F]. intros p Hp. cbn in Hp.
    rewrite Z.gtb_ltb. now apply Z.ltb_lt.
  - destruct (IH I) as (before & E & B).
    assert (Hax : timestamp a < timestamp x)
      by (rewrite Forall_forall in F; now apply F).
    exists (a :: before). split; [|now constructor].
    cbn. replace (timestamp a >? timestamp x) with false
      by (symmetry; rewrite Z.gtb_ltb; apply Z.ltb_ge; lia).
    now rewrite <- E.
Qed.

(** X4: in a series of strictly increasing timestamps with a non-empty
    post-window, the points after the peak are exactly the tail of the
    series that follows the peak, so the crash window is the (up to) 365
    points that come right after the peak. *)
Theorem crash_window_follows_peak (data : list PricePoint) (T : Z) :
  ascending data ->
  postHalvingDataPoints data T <> [] ->
  exists before,
    data = before ++ peak data T :: afterPeak data T /\
    Forall (fun p => timestamp p < timestamp (peak data T)) before.
Proof.
  intros Asc NE. apply ascending_after; [exact Asc|].
  pose proof (peak_In data T NE) as H.
  now apply (Kept_In _ _ _ (post_Kept data T)) in H.
Qed.

Lemma sample_series_ascending : ascending sample_series.
Proof.
  unfold ascending, sample_series.
  repeat (constructor; [|repeat constructor]). constructor.
Qed.

Lemma crash_window_follows_peak_witness :
  ascending sample_series /\
  postHalvingDataPoints sample_series (day 0) <> [] /\
  exists before,
    sample_series = before ++ peak sample_series (day 0) :: afterPeak sample_series (day 0).
Proof.
  assert (NE : postHalvingDataPoints sample_series (day 0) <> []) by discriminate.
  split; [exact sample_series_ascending|]. split; [exact NE|].
  destruct (crash_window_follows_peak sample_series (day 0) sample_series_ascending NE)
    as (before & E & _).
  exists before. exact E.
Defined.

(** *** Later points *)

Lemma pre_window_app (data extra : list PricePoint) (T : Z) :
  Forall (fun p => T < timestamp p) extra ->
  preHalvingDataPoints (data ++ extra) T = preHalvingDataPoints data T.
Proof.
  intros F. unfold preHalvingDataPoints. rewrite filter_app, (filter_none _ extra).
  - apply app_nil_r.
  - eapply Forall_impl; [|exact F]. intros p Hp. cbn in Hp.
    apply andb_false_iff. right. apply Z.leb_gt. lia.
Qed.

Lemma post_window_app (data extra : list PricePoint) (T : Z) :
  Forall (fun p => T + 730 * JSDate.MS_PER_DAY < timestamp p) extra ->
  postHalvingDataPoints (data ++ extra) T = postHalvingDataPoints data T.
Proof.
  intros F. unfold postHalvingDataPoints. rewrite filter_app, (filter_none _ extra).
  - apply app_nil_r.
  - eapply Forall_impl; [|exact F]. intros p Hp. cbn in Hp.
    apply andb_false_iff. right. apply Z.leb_gt.
    unfold postHalvingEnd. unfold JSDate.MS_PER_DAY in Hp. lia.
Qed.

(** X5: points appended beyond the post-window (timestamp above
    T + 730 days) leave the pre-halving and post-halving figures of the
    cycle unchanged; once at least 365 points follow the peak they leave
    the whole analysis of the cycle unchanged. *)
Theorem later_points_leave_cycle_unchanged
    (data extra : list PricePoint) (halving : HalvingEvent) (T : Z) :
  Forall (fun p => T + 730 * JSDate.MS_PER_DAY < timestamp p) extra ->
  preHalvingData (analysis (data ++ extra) halving T) =
    preHalvingData (analysis data halving T) /\
  postHalvingData (analysis (data ++ extra) halving T) =
    postHalvingData (analysis data halving T) /\
  (365 <= JSArray.length (afterPeak data T) ->
   analysis (data ++ extra) halving T = analysis data halving T).
Proof.
  intros F.
  assert (F' : Forall (fun p => T < timestamp p) extra).
  { eapply Forall_impl; [|exact F]. intros p Hp. cbn in Hp.
    unfold JSDate.MS_PER_DAY in Hp. lia. }
  pose proof (pre_window_app data extra T F') as Epre.
  pose proof (post_window_app data extra T F) as Epost.
  assert (Es : startPriceOf (data ++ extra) T = startPriceOf data T)
    by (unfold startPriceOf; now rewrite Epre).
  assert (Eh : halvingPriceOf (data ++ extra) halving T = halvingPriceOf data halving T)
    by (unfold halvingPriceOf; now rewrite Epre).
  assert (Ep : peak (data ++ extra) T = peak data T)
    by (unfold peak; now rewrite Epost).
  assert (Epp : peakPriceOf (data ++ extra) T = peakPriceOf data T)
    by (unfold peakPriceOf; now rewrite Ep).
  assert (E1 : preHalvingData (analysis (data ++ extra) halving T) =
               preHalvingData (analysis data halving T)).
  { unfold analysis. cbn [preHalvingData]. unfold preHalvingGain. now rewrite Es, Eh. }
  assert (E2 : postHalvingData (analysis (data ++ extra) halving T) =
               postHalvingData (analysis data halving T)).
  { unfold analysis. cbn [postHalvingData].
    unfold postHalvingGain, peakDateOf, daysToTopOf. now rewrite Epost, Eh, Epp, Ep. }
  split; [exact E1|]. split; [exact E2|].
  intros L.
  assert (Eb : bottomAfterPeak (data ++ extra) T = bottomAfterPeak data T).
  { unfold bottomAfterPeak, afterPeak. rewrite Ep, Epp, filter_app.
    fold (afterPeak data T).
    unfold JSArray.length in L.
    destruct (afterPeak data T) as [|p r] eqn:E; [cbn in L; lia|].
    rewrite !at_index_0. cbn [app hd_error]. unfold slice0.
    rewrite app_comm_cons, firstn_app.
    replace (365 - List.length (p :: r))%nat with 0%nat by lia.
    cbn [firstn]. now rewrite app_nil_r. }
  unfold analysis in *. cbn [preHalvingData postHalvingData] in E1, E2.
  rewrite E1, E2. unfold crashPercentage. now rewrite Eb, Epp.
Qed.

Lemma later_points_leave_cycle_unchanged_witness :
  Forall (fun p => day 0 + 730 * JSDate.MS_PER_DAY < timestamp p)
         [mkPoint (day 900) "2015-05-17" 1%float] /\
  365 <= JSArray.length (afterPeak long_series (day 0)) /\
  analysis (long_series ++ [mkPoint (day 900) "2015-05-17" 1%float]) halving1 (day 0) =
    analysis long_series halving1 (day 0).
Proof.
  assert (F : Forall (fun p => day 0 + 730 * JSDate.MS_PER_DAY < timestamp p)
                     [mkPoint (day 900) "2015-05-17" 1%float])
    by (repeat constructor).
  assert (L : 365 <= JSArray.length (afterPeak long_series (day 0)))
    by (vm_compute; discriminate).
  split; [exact F|]. split; [exact L|].
  exact (proj2 (proj2 (later_points_leave_cycle_unchanged
                         long_series _ halving1 (day 0) F)) L).
Defined.

(** *** Empty windows *)

(** X6: when the pre-window is empty, startPrice is 0 and halvingPrice is
    the event's priceAtHalving; for a positive priceAtHalving the reported
    preGain% is then exactly +Infinity. *)
Theorem empty_pre_window (data : list PricePoint) (halving : HalvingEvent) (T : Z) :
  preHalvingDataPoints data T = [] ->
  let a := preHalvingData (analysis data halving T) in
  startPrice a = 0%float /\
  pre_halvingPrice a = priceAtHalving halving /\
  (JSNum.positive (priceAtHalving halving) = true -> pre_percentageGain a = infinity).
Proof.
  intros E a.
  assert (Es : startPrice a = 0%float) by (cbn; unfold startPriceOf; now rewrite E).
  assert (Eh : pre_halvingPrice a = priceAtHalving halving)
    by (cbn; unfold halvingPriceOf; now rewrite E).
  split; [exact Es|]. split; [exact Eh|].
  intros Hpos. change (pre_percentageGain a) with (JSNum.pct (pre_halvingPrice a) (startPrice a)).
  rewrite Es, Eh. now apply JSNumMore.pct_over_zero.
Qed.

Lemma empty_pre_window_witness :
  preHalvingDataPoints sample_series (JSDate.getTime (h_date halving4)) = [] /\
  JSNum.positive (priceAtHalving halving4) = true /\
  pre_percentageGain (preHalvingData (analyse sample_series halving4)) = infinity.
Proof.
  split; [reflexivity|]. split; [reflexivity|].
  pose proof (empty_pre_window sample_series halving4
                (JSDate.getTime (h_date halving4)) eq_refl) as H.
  cbv zeta in H. destruct H as (_ & _ & H). apply H. reflexivity.
Defined.

(** X7: when the post-window is empty (sentinel peak) and the series of
    positive prices has a point with positive timestamp, the reported
    drawdown is exactly +Infinity. *)
Theorem sentinel_peak_drawdown (data : list PricePoint) (halving : HalvingEvent) (T : Z) :
  well_formed data ->
  postHalvingDataPoints data T = [] ->
  afterPeak data T <> [] ->
  percentageFromPeak (crashData (analysis data halving T)) = infinity.
Proof.
  intros WF EP NE.
  change (percentageFromPeak (crashData (analysis data halving T)))
    with (JSNum.pct (price (bottomAfterPeak data T)) (peakPriceOf data T)).
  assert (PP : peakPriceOf data T = 0%float)
    by (unfold peakPriceOf; now rewrite (peak_empty data T EP)).
  rewrite PP. apply JSNumMore.pct_over_zero.
  assert (I : In (bottomAfterPeak data T) (slice0 365 (afterPeak data T))).
  { unfold bottomAfterPeak. destruct (afterPeak data T) as [|p r]; [congruence|].
    rewrite at_index_0. cbn [hd_error].
    pose proof (reduce_In (fun p m => JSNum.lt (price p) (price m))
                          (slice0 365 (p :: r)) p) as H.
    destruct H as [H|H]; [|exact H]. unfold lower. rewrite <- H. now left. }
  apply slice0_In in I. apply (Kept_In _ _ _ (after_Kept data T)) in I.
  destruct I as [I _]. unfold well_formed in WF. rewrite Forall_forall in WF. now apply WF.
Qed.

Lemma sentinel_peak_drawdown_witness :
  well_formed sample_series /\
  postHalvingDataPoints sample_series (JSDate.getTime (h_date halving4)) = [] /\
  afterPeak sample_series (JSDate.getTime (h_date halving4)) <> [] /\
  percentageFromPeak (crashData (analyse sample_series halving4)) = infinity.
Proof.
  assert (NE : afterPeak sample_series (JSDate.getTime (h_date halving4)) <> [])
    by discriminate.
  split; [exact sample_series_well_formed|]. split; [reflexivity|]. split; [exact NE|].
  exact (sentinel_peak_drawdown sample_series halving4 (JSDate.getTime (h_date halving4))
           sample_series_well_formed eq_refl NE).
Defined.

(** X8: halvingPrice is never falsy when the event's priceAtHalving is not:
    a zero or NaN closing price is replaced by priceAtHalving.  For the four
    events of the table, whatever the series, halvingPrice is therefore
    neither zero nor NaN, and postGain% never divides by zero. *)
Theorem halving_price_never_zero (data : list PricePoint) (halving : HalvingEvent) (T : Z) :
  (JSNum.truthy (priceAtHalving halving) = true ->
   JSNum.truthy (halvingPriceOf data halving T) = true) /\
  (In halving halvingEvents ->
   is_zero (halvingPriceOf data halving T) = false /\
   is_nan (halvingPriceOf data halving T) = false).
Proof.
  assert (G : JSNum.truthy (priceAtHalving halving) = true ->
              JSNum.truthy (halvingPriceOf data halving T) = true).
  { intros Ht. unfold halvingPriceOf.
    destruct (at_index _ _); [now apply JSNumMore.truthy_or_else|exact Ht]. }
  split; [exact G|]. intros I.
  assert (Ht : JSNum.truthy (priceAtHalving halving) = true).
  { cbn in I. destruct I as [<-|[<-|[<-|[<-|[]]]]]; reflexivity. }
  specialize (G Ht). unfold JSNum.truthy in G.
  destruct (is_zero _), (is_nan _); cbn in G; try discriminate. now split.
Qed.

Lemma halving_price_never_zero_witness :
  JSNum.truthy (priceAtHalving halving1) = true /\
  In halving1 halvingEvents /\
  halvingPriceOf [mkPoint (day 0) "2012-11-28" 0%float] halving1 (day 0) = 12.35%float /\
  is_zero (halvingPriceOf [mkPoint (day 0) "2012-11-28" 0%float] halving1 (day 0)) = false.
Proof.
  assert (I : In halving1 halvingEvents) by (left; reflexivity).
  split; [reflexivity|]. split; [exact I|]. split; [reflexivity|].
  exact (proj1 (proj2 (halving_price_never_zero
                         [mkPoint (day 0) "2012-11-28" 0%float] halving1 (day 0)) I)).
Defined.

(** X18: when the post-window is empty, daysToTop is measured from the
    sentinel's timestamp 0: it equals floor(-T / 1 day), which is negative
    for every event after the epoch, and the post-window count is 0. *)
Theorem sentinel_days_to_top_negative
    (data : list PricePoint) (halving : HalvingEvent) (T : Z) :
  postHalvingDataPoints data T = [] ->
  let a := postHalvingData (analysis data halving T) in
  daysToTop a = (- T) / JSDate.MS_PER_DAY /\
  post_days a = 0 /\
  (0 < T -> daysToTop a < 0).
Proof.
  intros E a.
  assert (D : daysToTop a = (- T) / JSDate.MS_PER_DAY).
  { change (daysToTop a) with ((timestamp (peak data T) - T) / (24 * 60 * 60 * 1000)).
    rewrite (peak_empty data T E). cbn [timestamp sentinel]. reflexivity. }
  split; [exact D|]. split.
  - change (post_days a) with (JSArray.length (postHalvingDataPoints data T)).
    now rewrite E.
  - intros HT. rewrite D. unfold JSDate.MS_PER_DAY.
    change (24 * 60 * 60 * 1000) with 86400000.
    apply Z.div_lt_upper_bound; lia.
Qed.

Lemma sentinel_days_to_top_negative_witness :
  postHalvingDataPoints sample_series (JSDate.getTime (h_date halving4)) = [] /\
  0 < JSDate.getTime (h_date halving4) /\
  daysToTop (postHalvingData (analyse sample_series halving4)) = -19832.
Proof.
  pose proof (sentinel_days_to_top_negative sample_series halving4
                (JSDate.getTime (h_date halving4)) eq_refl) as H.
  cbv zeta in H. destruct H as (D & _ & _).
  split; [reflexivity|]. split; [reflexivity|].
  unfold analyse. rewrite D. reflexivity.
Defined.

End CycleMore.

(** ** More on the session *)

Module SessionMore.
Import JSArray.

(** *** The loader *)

Section LoadMore.

Variable format : Z -> option string.

Lemma formatItem_ok (item : Item) (p : PricePoint) :
  formatItem format item = inr p <-> formats format item p.
Proof.
  unfold formats. destruct item as [t x|]; cbn.
  - destruct (format t) as [d|] eqn:E; cbn; split.
    + intros H. injection H as <-. now exists t, x, d.
    + intros (t' & x' & d' & H & Hd & ->). injection H as <- <-.
      rewrite E in Hd. now injection Hd as <-.
    + discriminate.
    + intros (t' & x' & d' & H & Hd & _). injection H as <- <-. congruence.
  - split; [discriminate|]. intros (t & x & d & H & _). discriminate.
Qed.

Lemma mapM_ok {A B : Type} (f : A -> Result B) (arr : list A) (out : list B) :
  mapM f arr = inr out <-> Forall2 (fun a b => f a = inr b) arr out.
Proof.
  revert out. induction arr as [|a arr IH]; intros out; cbn.
  - split; [intros [= <-]; constructor|intros H; now inversion H].
  - destruct (f a) as [e|b] eqn:Fa; cbn.
    + split; [discriminate|]. intros H. inversion H; congruence.
    + destruct (mapM f arr) as [e|bs] eqn:M; cbn.
      * split; [discriminate|]. intros H. inversion H as [|? b' ? bs' Hb Hbs]; subst.
        apply IH in Hbs. discriminate.
      * split.
        -- intros [= <-]. constructor; [exact Fa|now apply IH].
        -- intros H. inversion H as [|? b' ? bs' Hb Hbs]; subst.
           apply IH in Hbs. unfold ret. congruence.
Qed.

(** X9: the load succeeds exactly when the response is JSON whose [prices]
    is an array of pairs with formattable timestamps; the series then has
    one point per item, in order, carrying the item's timestamp and price.
    A single bad item fails the whole load. *)
Theorem load_all_or_nothing (r : Response) (out : list PricePoint) :
  formattedData format r = inr out <->
  exists prices, r = Json (Some prices) /\ Forall2 (formats format) prices out.
Proof.
  destruct r as [| |[prices|]]; cbn.
  - split; [discriminate|]. intros (? & ? & _). discriminate.
  - split; [discriminate|]. intros (? & ? & _). discriminate.
  - rewrite mapM_ok. split.
    + intros H. exists prices. split; [reflexivity|].
      eapply Forall2_impl; [|exact H]. intros a b. apply formatItem_ok.
    + intros (prices' & [= <-] & H).
      eapply Forall2_impl; [|exact H]. intros a b. apply formatItem_ok.
  - split; [discriminate|]. intros (? & ? & _). discriminate.
Qed.

Lemma formats_fields (prices : list Item) (out : list PricePoint) :
  Forall2 (formats format) prices out ->
  map (fun p => Pair (timestamp p) (price p)) out = prices.
Proof.
  induction 1 as [|item p prices out (t & x & d & -> & _ & ->) _ IH]; cbn;
    [reflexivity|now rewrite IH].
Qed.

(** X10: the stored series gives back the response: mapping each stored
    point to its (timestamp, price) pair yields the [prices] array, item for
    item. *)
Theorem load_keeps_prices (prices : list Item) (out : list PricePoint) :
  formattedData format (Json (Some prices)) = inr out ->
  map (fun p => Pair (timestamp p) (price p)) (priceData (session format (Json (Some prices))))
    = prices /\
  List.length (priceData (session format (Json (Some prices)))) = List.length prices.
Proof.
  intros F.
  assert (E : priceData (session format (Json (Some prices))) = out).
  { unfold session. now rewrite (SessionClaims.fetch_success format _ out _ F). }
  apply load_all_or_nothing in F. destruct F as (prices' & [= <-] & H).
  rewrite E. split; [now apply formats_fields|].
  symmetry. eapply Forall2_length. exact H.
Qed.




End LoadMore.

Lemma load_keeps_prices_witness :
  formattedData (fun _ => Some "2012-11-28")
    (Json (Some [Pair 1354060800000 12.5%float; Pair 1354147200000 13%float])) =
    inr [mkPoint 1354060800000 "2012-11-28" 12.5%float;
         mkPoint 1354147200000 "2012-11-28" 13%float] /\
  List.length (priceData (session (fun _ => Some "2012-11-28")
    (Json (Some [Pair 1354060800000 12.5%float; Pair 1354147200000 13%float])))) = 2%nat.
Proof.
  split; [reflexivity|].
  exact (proj2 (load_keeps_prices (fun _ => Some "2012-11-28")
                  [Pair 1354060800000 12.5%float; Pair 1354147200000 13%float]
                  [mkPoint 1354060800000 "2012-11-28" 12.5%float;
                   mkPoint 1354147200000 "2012-11-28" 13%float] eq_refl)).
Defined.


(** *** The summary panel *)

Lemma sum_not_finite_from (f : CycleAnalysis -> float) (arr : list CycleAnalysis)
    (acc : float) :
  JSNum.isFinite acc = false ->
  JSNum.isFinite (fold_left (fun sum a => sum + f a)%float arr acc) = false.
Proof.
  revert acc. induction arr as [|a arr IH]; intros acc H; cbn; [exact H|].
  apply IH. now apply JSNumMore.add_not_finite_l.
Qed.

Lemma sum_not_finite (f : CycleAnalysis -> float) (arr : list CycleAnalysis)
    (acc : float) (a : CycleAnalysis) :
  In a arr ->
  JSNum.isFinite (f a) = false ->
  JSNum.isFinite (fold_left (fun sum a => sum + f a)%float arr acc) = false.
Proof.
  revert acc. induction arr as [|b arr IH]; intros acc I H; [destruct I|].
  cbn. destruct I as [->|I].
  - apply sum_not_finite_from. now apply JSNumMore.add_not_finite_r.
  - now apply IH.
Qed.

(** X13: one percentage that is not finite makes the average over the
    cards not finite (the divisor being the positive number of cards). *)
Theorem average_not_finite (f : CycleAnalysis -> float) (arr : list CycleAnalysis)
    (a : CycleAnalysis) :
  JSNum.positive (number_of_length (List.length arr)) = true ->
  In a arr ->
  JSNum.isFinite (f a) = false ->
  JSNum.isFinite (average f arr) = false.
Proof.
  intros L I H. unfold average, reduce.
  apply JSNumMore.div_not_finite; [|exact L].
  now apply (sum_not_finite f arr 0%float a).
Qed.

Lemma average_not_finite_witness :
  JSNum.positive (number_of_length (List.length (backtest sample_series))) = true /\
  In (analyse sample_series halving4) (backtest sample_series) /\
  JSNum.isFinite (pre_percentageGain (preHalvingData (analyse sample_series halving4))) = false /\
  JSNum.isFinite
    (average (fun a => pre_percentageGain (preHalvingData a)) (backtest sample_series)) = false.
Proof.
  assert (I : In (analyse sample_series halving4) (backtest sample_series))
    by (cbn; tauto).
  split; [reflexivity|]. split; [exact I|]. split; [reflexivity|].
  exact (average_not_finite (fun a => pre_percentageGain (preHalvingData a))
           (backtest sample_series) (analyse sample_series halving4)
           eq_refl I eq_refl).
Defined.

Section SummaryMore.

Variable format : Z -> option string.

(** X14: after a failed load the three summary figures are NaN (0 / 0):
    the panel is rendered over an empty analysis list. *)
Theorem summary_after_failed_load (r : Response) (e : Exn) :
  formattedData format r = inl e ->
  summary (session format r) = mkSummary nan nan nan.
Proof.
  intros F. unfold session.
  rewrite (SessionClaims.fetch_failure format r e initialState F). reflexivity.
Qed.

(** X15: after a successful load, an event of the table whose pre-window
    holds no point of the series makes the average pre-halving gain not
    finite, and one whose post-window holds no point makes the average
    drawdown not finite. *)
Theorem summary_not_finite (r : Response) (formatted : list PricePoint)
    (halving : HalvingEvent) :
  formattedData format r = inr formatted ->
  In halving halvingEvents ->
  (preHalvingDataPoints formatted (JSDate.getTime (h_date halving)) = [] ->
   JSNum.isFinite (avgPreHalvingGain (summary (session format r))) = false) /\
  (postHalvingDataPoints formatted (JSDate.getTime (h_date halving)) = [] ->
   JSNum.isFinite (avgDrawdown (summary (session format r))) = false).
Proof.
  intros F I. unfold session.
  rewrite (SessionClaims.fetch_success format r formatted initialState F).
  cbn [summary cycleAnalysis avgPreHalvingGain avgDrawdown].
  rewrite backtest_map.
  assert (L : JSNum.positive
                (number_of_length (List.length (map (analyse formatted) halvingEvents))) = true)
    by (rewrite length_map; reflexivity).
  assert (Ia : In (analyse formatted halving) (map (analyse formatted) halvingEvents))
    by now apply in_map.
  split; intros E;
    apply (average_not_finite _ _ (analyse formatted halving) L Ia); unfold analyse; cbn.
  - apply JSNumFacts.pct_zero_divisor. unfold startPriceOf. now rewrite E.
  - apply JSNumFacts.pct_zero_divisor. unfold peakPriceOf.
    now rewrite (CycleFacts.peak_empty _ _ E).
Qed.

End SummaryMore.

Lemma summary_after_failed_load_witness :
  formattedData (fun _ => None) NotJson = inl SyntaxError /\
  avgPreHalvingGain (summary (session (fun _ => None) NotJson)) = nan.
Proof.
  split; [reflexivity|].
  now rewrite (summary_after_failed_load (fun _ => None) NotJson SyntaxError eq_refl).
Defined.

Lemma summary_not_finite_witness :
  formattedData (fun _ => Some "2013-04-28")
    (Json (Some [Pair 1367107200000 135.3%float])) =
    inr [mkPoint 1367107200000 "2013-04-28" 135.3%float] /\
  preHalvingDataPoints [mkPoint 1367107200000 "2013-04-28" 135.3%float]
    (JSDate.getTime (h_date halving1)) = [] /\
  JSNum.isFinite (avgPreHalvingGain (summary (session (fun _ => Some "2013-04-28")
    (Json (Some [Pair 1367107200000 135.3%float]))))) = false.
Proof.
  assert (I : In halving1 halvingEvents) by (left; reflexivity).
  split; [reflexivity|]. split; [reflexivity|].
  exact (proj1 (summary_not_finite (fun _ => Some "2013-04-28")
                  (Json (Some [Pair 1367107200000 135.3%float]))
                  [mkPoint 1367107200000 "2013-04-28" 135.3%float]
                  halving1 eq_refl I) eq_refl).
Defined.

(** *** The table *)

(** X16: whatever the series (the empty one included), the backtest yields
    one analysis per event of the table, in table order: cycles 1 to 4 with
    the table's dates, so the card keys are pairwise distinct. *)
Theorem backtest_shape (data : list PricePoint) :
  map cycle (backtest data) = [1; 2; 3; 4] /\
  map halvingDate (backtest data) = ["2012-11-28"; "2016-07-09"; "2020-05-11"; "2024-04-19"] /\
  NoDup (map cycle (backtest data)) /\
  Forall (fun a => pre_days (preHalvingData a) = 365) (backtest data).
Proof.
  split; [reflexivity|]. split; [reflexivity|]. split.
  - change (map cycle (backtest data)) with [1; 2; 3; 4].
    repeat constructor; cbn; intuition discriminate.
  - rewrite backtest_map. repeat constructor.
Qed.

(** X17: the pre- and post-windows of two different events of the table
    never share a timestamp: no price point is counted in the windows of
    two cycles. *)
Theorem cycle_windows_disjoint (h1 h2 : HalvingEvent) (p : PricePoint) :
  In h1 halvingEvents ->
  In h2 halvingEvents ->
  in_cycle_window h1 p ->
  in_cycle_window h2 p ->
  h1 = h2.
Proof.
  intros I1 I2 W1 W2. cbn in I1, I2.
  unfold in_cycle_window, in_pre_window, in_post_window, JSDate.MS_PER_DAY in W1, W2.
  destruct I1 as [<-|[<-|[<-|[<-|[]]]]]; destruct I2 as [<-|[<-|[<-|[<-|[]]]]];
    try reflexivity; exfalso;
    cbn [h_date] in W1, W2;
    change (JSDate.getTime "2012-11-28") with 1354060800000 in *;
    change (JSDate.getTime "2016-07-09") with 1468022400000 in *;
    change (JSDate.getTime "2020-05-11") with 1589155200000 in *;
    change (JSDate.getTime "2024-04-19") with 1713484800000 in *;
    lia.
Qed.

Lemma cycle_windows_disjoint_witness :
  In halving1 halvingEvents /\
  in_cycle_window halving1 (mkPoint (day 100) "2013-03-08" 40%float) /\
  halving1 = halving1.
Proof.
  assert (I : In halving1 halvingEvents) by (left; reflexivity).
  assert (W : in_cycle_window halving1 (mkPoint (day 100) "2013-03-08" 40%float)).
  { right. unfold in_post_window. vm_compute. split; [reflexivity|discriminate]. }
  split; [exact I|]. split; [exact W|].
  exact (cycle_windows_disjoint halving1 halving1 _ I I W W).
Defined.

End SessionMore.
